(** * stdnum-js: the South African TIN and Andorran NRT validators

    A shallow embedding of the two validator modules

      - [src/no/kontonr.ts], whose header documents it as the
        "TIN (South African Tax Identification Number)" module, and
      - the Andorran "NRT (Número de Registre Tributari)" module
        (class [NrtSingleton]),

    together with the properties their specification states about
    [compact], [format] and [validate].

    JavaScript strings are modelled by [string]: a sequence of code units
    (8-bit here, 16-bit in JavaScript).  Every string operation embedded
    in [Js] ([length], indexing, [substr], [startsWith], [padStart],
    [includes], the relational operators) works code unit by code unit, so
    the embedding is the source restricted to the Latin-1 code units.
    [toLocaleUpperCase], which depends on the host's locale and does not
    work code unit by code unit, is a parameter of the embedding. *)

From Stdlib Require Import ZArith List Bool Lia.
From Stdlib Require Import Strings.Ascii Strings.String Numbers.DecimalString.
Import ListNotations.
Local Open Scope string_scope.
Local Open Scope bool_scope.

(** ** JavaScript string primitives *)

Module Js.

(** [value.startsWith(p)] *)
Definition startsWith (value p : string) : bool := prefix p value.

(** [value.substr(start)], for [start >= 0] *)
Fixpoint substr_from (value : string) (start : nat) {struct start}
  : string :=
  match start, value with
  | O, _ => value
  | S _, EmptyString => EmptyString
  | S n, String _ rest => substr_from rest n
  end.

(** [value.substr(start, len)], for [start >= 0]; a [len] that is not
    positive yields the empty string, as truncated subtraction does. *)
Definition substr (value : string) (start len : nat) : string :=
  substring start len value.

(** [v[i]] for [i < v.length]: the one-character string at index [i].
    Past the end JavaScript yields [undefined]; both modules index a
    string only after its length has been checked, and the embedding
    yields the empty string there. *)
Definition at_ (v : string) (i : nat) : string := substring i 1 v.

(** [fill.repeat(n)] for a one-code-unit [fill] *)
Fixpoint repeat_char (fill : ascii) (n : nat) : string :=
  match n with
  | O => EmptyString
  | S k => String fill (repeat_char fill k)
  end.

(** [value.padStart(n, fill)] for a one-code-unit [fill] *)
Definition padStart (value : string) (n : nat) (fill : ascii) : string :=
  repeat_char fill (n - length value) ++ value.

(** [hay.includes(needle)]: [needle] occurs in [hay] as a substring *)
Fixpoint includes (hay needle : string) : bool :=
  prefix needle hay ||
  match hay with
  | EmptyString => false
  | String _ rest => includes rest needle
  end.

(** [a > b] and [a < b] on strings: lexicographic on code units *)
Definition gt (a b : string) : bool := String.ltb b a.
Definition lt (a b : string) : bool := String.ltb a b.

(** [a === b] on strings *)
Definition strict_eq (a b : string) : bool := String.eqb a b.

(** [parts.join(sep)] *)
Definition join (sep : string) (parts : list string) : string :=
  String.concat sep parts.

(** [String(n)] for an integral number [n]: its decimal rendering *)
Definition String_ (n : Z) : string := NilZero.string_of_int (Z.to_int n).

End Js.

(** ** Result types ([../exceptions], [../types]) *)

(** The four validation errors the modules construct. *)
Inductive ErrorKind : Set :=
| InvalidFormat
| InvalidLength
| InvalidComponent
| InvalidChecksum.

(** The completion of a call: a returned value or a thrown error. *)
Inductive completion (A : Type) : Type :=
| Return (a : A)
| Throw (e : ErrorKind).

Arguments Return {A} a.
Arguments Throw {A} e.

Definition bind {A B : Type} (c : completion A) (k : A -> completion B)
  : completion B :=
  match c with
  | Return a => k a
  | Throw e => Throw e
  end.

Notation "x <- c ;; k" := (bind c (fun x => k))
  (at level 61, c at next level, right associativity).

(** [ValidateReturn]: the object [validate] returns, with the optional
    fields of the two object literals the modules build. *)
Record ValidateReturn : Set := mkValidateReturn {
  isValid : bool;
  compact : option string;
  isIndividual : option bool;
  isCompany : option bool;
  error : option ErrorKind
}.

(** [{ isValid: false, error }] *)
Definition invalid (e : ErrorKind) : ValidateReturn :=
  {| isValid := false; compact := None; isIndividual := None;
     isCompany := None; error := Some e |}.

(** [{ isValid: true, compact, isIndividual, isCompany }] *)
Definition valid (c : string) (individual company : bool) : ValidateReturn :=
  {| isValid := true; compact := Some c;
     isIndividual := Some individual; isCompany := Some company;
     error := None |}.

(** ** The imported helpers ([../util], [../util/checksum])

    The helper functions the two modules import are defined in other
    files of the library; the modules are embedded over an arbitrary
    implementation of them.  Each helper is a total function: the
    normalizer returns a pair of a value and an optional error, the
    predicates a boolean, the weighted sum an integer.  The host's
    [String.prototype.toLocaleUpperCase] is taken the same way: as an
    arbitrary function from strings to strings. *)
Class Util : Type := {
  (** [value.toLocaleUpperCase()] *)
  toLocaleUpperCase : string -> string;
  (** [cleanUnicode(input, deleteChars)]: the pair [[value, err]] *)
  cleanUnicode : string -> string -> string * option ErrorKind;
  (** [isdigits(value)] *)
  isdigits : string -> bool;
  (** [isalpha(value)] *)
  isalpha : string -> bool;
  (** [formatPattern(pattern, value)] *)
  formatPattern : string -> string -> string;
  (** [luhnChecksumValidate(value)] *)
  luhnChecksumValidate : string -> bool;
  (** [weightedSum(value, { weights, modulus })] *)
  weightedSum : string -> list Z -> Z -> Z
}.

(** Modelled from the spec: [strings.splitAt] is missing from the sources.
    The callers destructure its result by position ([[front, check]] for
    the point [-1], three parts joined by ['.'] for the points [4, 6]): the
    value is cut at the given offsets, a negative offset counting from the
    end, and the pieces are returned in order, the "trailing check
    substring" of the specification being the last one. *)
Fixpoint pieces (value : string) (from : nat) (offsets : list nat)
  : list string :=
  match offsets with
  | [] => [Js.substr_from value from]
  | p :: rest => substring from (p - from) value :: pieces value p rest
  end.

Definition splitAt (value : string) (points : list Z) : list string :=
  let len := Z.of_nat (length value) in
  pieces value 0
    (map (fun p => Z.to_nat (if (p <? 0)%Z then (len + p)%Z else p)) points).

(** ** South African TIN: [src/no/kontonr.ts] *)

Module Kontonr.
Section WithUtil.
Context {U : Util}.

Definition clean (input : string) : string * option ErrorKind :=
  let '(value, err) := cleanUnicode input " -." in
  match err with
  | Some _ => (value, err)
  | None =>
      if Js.startsWith value "0000"
      then (Js.substr_from value 4, None)
      else (value, None)
  end.

Definition compact (input : string) : completion string :=
  let '(value, err) := clean input in
  match err with
  | Some e => Throw e
  | None => Return value
  end.

Definition format (input : string) : completion string :=
  let '(value, _) := clean input in
  Return (Js.join "." (splitAt (Js.padStart value 11 "0") [4; 6]%Z)).

(** The weights of the 11-digit check. *)
Definition weights : list Z := [6; 7; 8; 9; 4; 5; 6; 7; 8; 9]%Z.

(** The body of [if (value.length === 11) { ... }]: [true] when the
    block returns the checksum error.  [front] and [check] are the first
    two elements of the split; [check] is [undefined] ([None]) when the
    split has fewer, and [String(sum) !== undefined] holds. *)
Definition check_mismatch (value : string) : bool :=
  let parts := splitAt value [-1]%Z in
  let front := nth 0 parts "" in
  let check := nth_error parts 1 in
  let sum := weightedSum front weights 11%Z in
  match check with
  | Some c => negb (Js.strict_eq (Js.String_ sum) c)
  | None => true
  end.

Definition validate (input : string) : completion ValidateReturn :=
  let '(value, error) := clean input in
  match error with
  | Some e => Return (invalid e)
  | None =>
      if negb (length value =? 11)%nat && negb (length value =? 7)%nat
      then Return (invalid InvalidLength)
      else if negb (isdigits value)
      then Return (invalid InvalidFormat)
      else if (length value =? 7)%nat && negb (luhnChecksumValidate value)
      then Return (invalid InvalidChecksum)
      else if (length value =? 11)%nat && check_mismatch value
      then Return (invalid InvalidChecksum)
      else Return (valid value false true)
  end.

End WithUtil.
End Kontonr.

(** ** Andorran NRT: class [NrtSingleton] *)

Module Nrt.
Section WithUtil.
Context {U : Util}.

Definition clean (input : string) : string * option ErrorKind :=
  cleanUnicode input " -.".

Definition compact (input : string) : completion string :=
  let '(value, err) := clean input in
  match err with
  | Some e => Throw e
  | None => Return (toLocaleUpperCase value)
  end.

(** [this.compact(input)] is the method above: the embedding is of the
    method invoked on the singleton [Nrt]. *)
Definition format (input : string) : completion string :=
  value <- compact input ;;
  Return (formatPattern "?-??????-?" value).

Definition validate (value : string) : completion ValidateReturn :=
  let '(v, error) := clean value in
  match error with
  | Some e => Return (invalid e)
  | None =>
      if negb (length v =? 8)%nat
      then Return (invalid InvalidLength)
      else
        let mid := Js.substr v 1 (length v - 2) in
        if negb (isalpha (Js.at_ v 0))
           || negb (isalpha (Js.at_ v (length v - 1)))
        then Return (invalid InvalidFormat)
        else if negb (isdigits mid)
        then Return (invalid InvalidFormat)
        else if negb (Js.includes "ACDEFGLOPU" (Js.at_ v 0))
        then Return (invalid InvalidComponent)
        else if Js.strict_eq (Js.at_ v 0) "F" && Js.gt mid "699999"
        then Return (invalid InvalidComponent)
        else if Js.includes "AL" (Js.at_ v 0)
                && Js.gt mid "699999" && Js.lt mid "800000"
        then Return (invalid InvalidComponent)
        else Return (valid v (Js.includes "AF" (Js.at_ v 0))
                             (negb (Js.includes "AF" (Js.at_ v 0))))
  end.

End WithUtil.
End Nrt.

(** ** The helpers as the specification describes them

    A reference implementation of the imported helpers, written from the
    specification's sections 4.1 to 4.3.  It instantiates the embedding
    where a property depends on what a helper computes. *)

Module SpecModel.

Definition is_digit (c : ascii) : bool :=
  let n := N_of_ascii c in (48 <=? n)%N && (n <=? 57)%N.

Definition is_letter (c : ascii) : bool :=
  let n := N_of_ascii c in
  ((65 <=? n)%N && (n <=? 90)%N) || ((97 <=? n)%N && (n <=? 122)%N).

Definition is_alnum (c : ascii) : bool := is_digit c || is_letter c.

Fixpoint mem_char (c : ascii) (chars : string) : bool :=
  match chars with
  | EmptyString => false
  | String d rest => Ascii.eqb c d || mem_char c rest
  end.

Fixpoint all_chars (p : ascii -> bool) (s : string) : bool :=
  match s with
  | EmptyString => true
  | String c rest => p c && all_chars p rest
  end.

(** Removal of every character present in [deleteChars]. *)
Fixpoint strip (deleteChars s : string) : string :=
  match s with
  | EmptyString => EmptyString
  | String c rest =>
      if mem_char c deleteChars
      then strip deleteChars rest
      else String c (strip deleteChars rest)
  end.

(** Upper-casing of one letter or digit: ['a'..'z'] to ['A'..'Z']. *)
Definition upper_ascii (c : ascii) : ascii :=
  let n := N_of_ascii c in
  if (97 <=? n)%N && (n <=? 122)%N then ascii_of_N (n - 32) else c.

Fixpoint map_string (f : ascii -> ascii) (s : string) : string :=
  match s with
  | EmptyString => EmptyString
  | String c rest => String (f c) (map_string f rest)
  end.

(** The case mapping of a host whose locale maps the ASCII letters the
    usual way, on strings of ASCII letters and digits.  Nothing else
    reaches it: the normalizer below applies it after its alphabet check,
    and the Andorran [compact] applies it to what the normalizer
    returned. *)
Definition toLocaleUpperCase (value : string) : string :=
  map_string upper_ascii value.

(** Modelled from the spec: [cleanUnicode] is missing from the sources.
    Section 4.1: the normalizer "removes every character present in
    allowedSeparators" and "fails with InvalidFormat when, after
    separator removal, any character lies outside the jurisdiction's
    declared alphabet (letters, digits, ...)"; it returns a CleanedValue,
    which section 3 describes as "uppercase where applicable,
    separators removed, verified against an allowed character set".  The
    alphabet is the ASCII letters and digits; the value that accompanies
    an error is the empty string. *)
Definition cleanUnicode (input deleteChars : string)
  : string * option ErrorKind :=
  let value := strip deleteChars input in
  if all_chars is_alnum value
  then (toLocaleUpperCase value, None)
  else (EmptyString, Some InvalidFormat).

(** Modelled from the spec: [isdigits] is missing from the sources.
    Section 4.4: "middle must be digits"; a non-empty string of decimal
    digits. *)
Definition isdigits (value : string) : bool :=
  negb (String.eqb value "") && all_chars is_digit value.

(** Modelled from the spec: [isalpha] is missing from the sources.
    Section 4.4: "first/last character must be alphabetic"; a non-empty
    string of letters. *)
Definition isalpha (value : string) : bool :=
  negb (String.eqb value "") && all_chars is_letter value.

(** The placeholder token of a format template. *)
Definition is_placeholder (t : ascii) : bool := Ascii.eqb t "?".

Fixpoint placeholders (pattern : string) : nat :=
  match pattern with
  | EmptyString => 0
  | String t rest =>
      (if is_placeholder t then 1 else 0) + placeholders rest
  end.

Fixpoint fill (pattern value : string) : string :=
  match pattern with
  | EmptyString => EmptyString
  | String t rest =>
      if is_placeholder t
      then match value with
           | EmptyString => fill rest EmptyString
           | String c value' => String c (fill rest value')
           end
      else String t (fill rest value)
  end.

(** Modelled from the spec: [formatPattern] is missing from the sources.
    Section 4.2: "walks the template left to right; literal tokens emit
    themselves; placeholder tokens consume the next character of the
    (optionally left-padded) cleaned value"; "when the cleaned value is
    shorter than the number of placeholders, left-pad with '0' before
    applying the template". *)
Definition formatPattern (pattern value : string) : string :=
  fill pattern (Js.padStart value (placeholders pattern) "0").

(** The decimal value of a digit character. *)
Definition digit_value (c : ascii) : Z := (Z.of_N (N_of_ascii c) - 48)%Z.

Definition digits_of (value : string) : list Z :=
  map digit_value (list_ascii_of_string value).

Definition luhn_double (d : Z) : Z :=
  let e := (2 * d)%Z in if (9 <? e)%Z then (e - 9)%Z else e.

(** The Luhn total over the digits from the right; [second] tells
    whether the current digit is a second one. *)
Fixpoint luhn_total (from_right : list Z) (second : bool) : Z :=
  match from_right with
  | [] => 0%Z
  | d :: rest =>
      ((if second then luhn_double d else d)
       + luhn_total rest (negb second))%Z
  end.

(** Modelled from the spec: [luhnChecksumValidate] is missing from the
    sources.  Section 4.3: "process digits right-to-left; double every
    second digit ...; if doubling exceeds 9, subtract 9 ...; sum all
    resulting values; valid iff total mod 10 equals 0". *)
Definition luhnChecksumValidate (value : string) : bool :=
  (luhn_total (rev (digits_of value)) false mod 10 =? 0)%Z.

Fixpoint weighted (digits weights : list Z) : Z :=
  match digits, weights with
  | d :: ds, w :: ws => (d * w + weighted ds ws)%Z
  | _, _ => 0%Z
  end.

(** Modelled from the spec: [weightedSum] is missing from the sources.
    Section 4.3: "multiply digit at position i (0-indexed, left to
    right) by weights[i]; sum all products; result is sum mod
    modulus". *)
Definition weightedSum (value : string) (weights : list Z) (modulus : Z)
  : Z :=
  (weighted (digits_of value) weights mod modulus)%Z.

End SpecModel.

#[export] Instance spec_util : Util := {|
  toLocaleUpperCase := SpecModel.toLocaleUpperCase;
  cleanUnicode := SpecModel.cleanUnicode;
  isdigits := SpecModel.isdigits;
  isalpha := SpecModel.isalpha;
  formatPattern := SpecModel.formatPattern;
  luhnChecksumValidate := SpecModel.luhnChecksumValidate;
  weightedSum := SpecModel.weightedSum
|}.

(** Strings of letters and digits; removal of the separators both
    modules pass to the normalizer. *)
Local Abbreviation alnum := (SpecModel.all_chars SpecModel.is_alnum).
Local Abbreviation stripped := (SpecModel.strip " -.").

(** * Properties *)

(** ** Shape of the results *)

(** A result is well formed when it is one of the two object literals:
    [isValid] with the three success fields and no error, or not
    [isValid] with one error and no success field. *)
Definition well_formed (r : ValidateReturn) : Prop :=
  (exists c individual company, r = valid c individual company)
  \/ (exists e, r = invalid e).

(** Exactly one of the two classification fields is [true]. *)
Definition exclusive (r : ValidateReturn) : Prop :=
  (isIndividual r = Some true /\ isCompany r = Some false)
  \/ (isIndividual r = Some false /\ isCompany r = Some true).

(** A returned invalid result is never a valid one. *)
Lemma returned_invalid_not_valid e r :
  Return (invalid e) = Return r -> isValid r = true -> False.
Proof.
  intros Heq Hv. injection Heq as <-. discriminate Hv.
Qed.

(** Case analysis on the guards of a [validate] body, in source order. *)
Ltac guards :=
  repeat match goal with
         | |- context [if ?b then _ else _] => destruct b eqn:?
         end.

Ltac guards_in H :=
  repeat match type of H with
         | context [if ?b then _ else _] => destruct b eqn:?
         end.

Ltac not_valid :=
  exfalso; eauto using returned_invalid_not_valid.

(** ** Strings and their pieces *)

Lemma substr_from_length (v : string) (n : nat) :
  length (Js.substr_from v n) = length v - n.
Proof.
  revert v; induction n as [|n IH]; intros v.
  - simpl Js.substr_from. now rewrite Nat.sub_0_r.
  - destruct v as [|c v]; simpl; [reflexivity | apply IH].
Qed.

Lemma eqb_length_differs (a b : string) :
  length a <> length b -> String.eqb a b = false.
Proof.
  intros Hlen. apply String.eqb_neq. intros ->. now apply Hlen.
Qed.

(** [splitAt] returns one piece more than it is given points, so the
    [front] of a destructured split is never [undefined]. *)
Lemma pieces_length (value : string) (offsets : list nat) (from : nat) :
  List.length (pieces value from offsets) = S (List.length offsets).
Proof.
  revert from; induction offsets as [|p rest IH]; intros from; simpl.
  - reflexivity.
  - now rewrite IH.
Qed.

Lemma splitAt_length (value : string) (points : list Z) :
  List.length (splitAt value points) = S (List.length points).
Proof.
  unfold splitAt. now rewrite pieces_length, length_map.
Qed.

(** [splitAt(value, -1)] on a value of 11 code units: the first ten and
    the last one. *)
Lemma splitAt_last_11 (value : string) :
  length value = 11 ->
  splitAt value [-1]%Z = [substring 0 10 value; Js.substr_from value 10].
Proof.
  intros Hlen. unfold splitAt. rewrite Hlen. reflexivity.
Qed.

Lemma substring_then_rest (n : nat) (w : string) :
  substring 0 n w ++ Js.substr_from w n = w.
Proof.
  revert w; induction n as [|n IH]; intros w.
  - now destruct w.
  - destruct w as [|c w]; simpl; [reflexivity | now rewrite IH].
Qed.

Lemma substring_of_rest (n m : nat) (w : string) :
  substring n m w = substring 0 m (Js.substr_from w n).
Proof.
  revert w; induction n as [|n IH]; intros w.
  - reflexivity.
  - destruct w as [|c w]; simpl; [now destruct m | apply IH].
Qed.

Lemma substr_from_twice (a b : nat) (w : string) :
  Js.substr_from (Js.substr_from w a) b = Js.substr_from w (a + b).
Proof.
  revert w; induction a as [|a IH]; intros w.
  - reflexivity.
  - destruct w as [|c w]; simpl; [now destruct b | apply IH].
Qed.

(** The three pieces of [splitAt(w, 4, 6)] make up [w]. *)
Lemma splitAt_4_6 (w : string) :
  splitAt w [4; 6]%Z
  = [substring 0 4 w; substring 4 2 w; Js.substr_from w 6]
  /\ substring 0 4 w ++ substring 4 2 w ++ Js.substr_from w 6 = w.
Proof.
  split; [reflexivity|].
  rewrite (substring_of_rest 4 2 w).
  change 6 with (4 + 2). rewrite <- (substr_from_twice 4 2 w).
  now rewrite !substring_then_rest.
Qed.

Lemma prefix_length (p v : string) :
  prefix p v = true -> length p <= length v.
Proof.
  revert v; induction p as [|a p IH]; intros v H.
  - simpl. lia.
  - destruct v as [|b v]; simpl in H; [discriminate H|].
    destruct (ascii_dec a b); [|discriminate H].
    specialize (IH v H). simpl. lia.
Qed.

(** A string that starts with ["0000"] is longer than what is left once
    the prefix is cut. *)
Lemma cut_prefix_differs (v : string) :
  Js.startsWith v "0000" = true -> Js.substr_from v 4 <> v.
Proof.
  intros Hp Heq. apply prefix_length in Hp.
  apply (f_equal length) in Heq.
  rewrite substr_from_length in Heq. simpl in Hp. lia.
Qed.

Lemma startsWith_padded (v : string) :
  Js.startsWith ("0000" ++ v) "0000" = true.
Proof.
  unfold Js.startsWith. simpl. now destruct v.
Qed.

(** ** The modules over arbitrary helpers *)

Section Generic.
Context (U : Util).

(** Every path of the South African [validate] returns one of the two
    object literals. *)
Lemma kontonr_validate_cases (input : string) :
  exists r, Kontonr.validate input = Return r /\ well_formed r.
Proof.
  unfold Kontonr.validate.
  destruct (Kontonr.clean input) as [value [e|]].
  - eexists; split; [reflexivity | right; eauto].
  - guards; eexists; split; try reflexivity;
      solve [right; eauto | left; eauto].
Qed.

(** The one success literal of the South African [validate]. *)
Lemma kontonr_valid_inv (input : string) (r : ValidateReturn) :
  Kontonr.validate input = Return r -> isValid r = true ->
  exists value,
    Kontonr.clean input = (value, None)
    /\ r = valid value false true
    /\ (length value = 11 \/ length value = 7).
Proof.
  unfold Kontonr.validate.
  destruct (Kontonr.clean input) as [value [e|]]; intros Hr Hv.
  - not_valid.
  - destruct (length value =? 11)%nat eqn:H11;
      destruct (length value =? 7)%nat eqn:H7; simpl in Hr;
      guards_in Hr; try (not_valid; fail);
      injection Hr as <-; exists value; repeat split;
      apply Nat.eqb_eq in H11 || apply Nat.eqb_eq in H7; auto.
Qed.

(** A remainder of ten renders as two characters and differs from every
    one-character check field. *)
Lemma check_mismatch_on_ten (value : string) :
  length value = 11 ->
  weightedSum (substring 0 10 value) Kontonr.weights 11%Z = 10%Z ->
  Kontonr.check_mismatch value = true.
Proof.
  intros Hlen Hsum. unfold Kontonr.check_mismatch.
  rewrite (splitAt_last_11 value Hlen). cbn [nth nth_error].
  rewrite Hsum. unfold Js.strict_eq.
  rewrite eqb_length_differs; [reflexivity|].
  rewrite substr_from_length, Hlen. simpl. lia.
Qed.

(** Every path of the Andorran [validate] returns one of the two object
    literals. *)
Lemma nrt_validate_cases (input : string) :
  exists r, Nrt.validate input = Return r /\ well_formed r.
Proof.
  unfold Nrt.validate.
  destruct (Nrt.clean input) as [v [e|]].
  - eexists; split; [reflexivity | right; eauto].
  - guards; eexists; split; try reflexivity;
      solve [right; eauto | left; eauto].
Qed.

(** The one success literal of the Andorran [validate]. *)
Lemma nrt_valid_inv (input : string) (r : ValidateReturn) :
  Nrt.validate input = Return r -> isValid r = true ->
  exists v,
    Nrt.clean input = (v, None)
    /\ length v = 8
    /\ r = valid v (Js.includes "AF" (Js.at_ v 0))
                   (negb (Js.includes "AF" (Js.at_ v 0))).
Proof.
  unfold Nrt.validate.
  destruct (Nrt.clean input) as [v [e|]]; intros Hr Hv.
  - not_valid.
  - destruct (length v =? 8)%nat eqn:H8; cbn [negb] in Hr; [|not_valid].
    guards_in Hr; try (not_valid; fail).
    injection Hr as <-. exists v. apply Nat.eqb_eq in H8.
    split; [reflexivity | split; [exact H8 | reflexivity]].
Qed.

End Generic.

(** ** What a valid result has passed *)

(** On 11 characters the checksum block compares the rendered sum of the
    first ten with the last one. *)
Lemma check_mismatch_11 (U : Util) (value : string) :
  length value = 11 ->
  Kontonr.check_mismatch value
  = negb (String.eqb
            (Js.String_
               (weightedSum (substring 0 10 value) Kontonr.weights 11%Z))
            (Js.substr_from value 10)).
Proof.
  intros Hlen. unfold Kontonr.check_mismatch.
  now rewrite (splitAt_last_11 value Hlen).
Qed.

(** The guards a valid South African result has passed. *)
Lemma kontonr_valid_checks (U : Util) (input value : string) :
  Kontonr.clean input = (value, None) ->
  Kontonr.validate input = Return (valid value false true) ->
  isdigits value = true
  /\ ((length value = 7 /\ luhnChecksumValidate value = true)
      \/ (length value = 11
          /\ Js.String_
               (weightedSum (substring 0 10 value) Kontonr.weights 11%Z)
             = Js.substr_from value 10)).
Proof.
  intros Hclean. unfold Kontonr.validate. rewrite Hclean.
  destruct (length value =? 11)%nat eqn:H11;
    destruct (length value =? 7)%nat eqn:H7; cbn [negb andb];
    try discriminate;
    destruct (isdigits value); cbn [negb]; try discriminate.
  - apply Nat.eqb_eq in H11, H7. lia.
  - apply Nat.eqb_eq in H11. rewrite (check_mismatch_11 U value H11).
    destruct (String.eqb_spec
                (Js.String_
                   (weightedSum (substring 0 10 value) Kontonr.weights 11%Z))
                (Js.substr_from value 10)) as [Heq|]; [|discriminate].
    intros _. split; [reflexivity | right; now split].
  - apply Nat.eqb_eq in H7.
    destruct (luhnChecksumValidate value); [|discriminate].
    intros _. split; [reflexivity | left; now split].
Qed.

(** The guards a valid Andorran result has passed. *)
Lemma nrt_valid_checks (U : Util) (input : string) (r : ValidateReturn) :
  Nrt.validate input = Return r -> isValid r = true ->
  exists v,
    Nrt.clean input = (v, None)
    /\ length v = 8
    /\ isalpha (Js.at_ v 0) = true
    /\ isalpha (Js.at_ v 7) = true
    /\ isdigits (Js.substr v 1 6) = true
    /\ Js.includes "ACDEFGLOPU" (Js.at_ v 0) = true
    /\ Js.strict_eq (Js.at_ v 0) "F" && Js.gt (Js.substr v 1 6) "699999"
       = false
    /\ Js.includes "AL" (Js.at_ v 0)
       && Js.gt (Js.substr v 1 6) "699999"
       && Js.lt (Js.substr v 1 6) "800000" = false.
Proof.
  unfold Nrt.validate.
  destruct (Nrt.clean input) as [v [e|]]; intros Hr Hv; [not_valid|].
  destruct (length v =? 8)%nat eqn:H8; cbn [negb] in Hr; [|not_valid].
  apply Nat.eqb_eq in H8. rewrite H8 in Hr.
  change (8 - 1) with 7 in Hr. change (8 - 2) with 6 in Hr.
  destruct (isalpha (Js.at_ v 0)) eqn:Ha; cbn [negb orb] in Hr;
    [|not_valid].
  destruct (isalpha (Js.at_ v 7)) eqn:Hz; cbn [negb] in Hr; [|not_valid].
  destruct (isdigits (Js.substr v 1 6)) eqn:Hd; cbn [negb] in Hr;
    [|not_valid].
  destruct (Js.includes "ACDEFGLOPU" (Js.at_ v 0)) eqn:Hallow;
    cbn [negb] in Hr; [|not_valid].
  destruct (Js.strict_eq (Js.at_ v 0) "F"
            && Js.gt (Js.substr v 1 6) "699999") eqn:HF; [not_valid|].
  destruct (Js.includes "AL" (Js.at_ v 0)
            && Js.gt (Js.substr v 1 6) "699999"
            && Js.lt (Js.substr v 1 6) "800000") eqn:HAL; [not_valid|].
  exists v. now repeat split.
Qed.

(** ** South African TIN *)

(** C1. For every input to the South Africa [validate] whose cleaned value
    has length 11, passes the digit check, and whose first ten digits have
    a weighted sum (weights [6,7,8,9,4,5,6,7,8,9]) of remainder 10 modulo
    11, [validate] returns the invalid result with [InvalidChecksum]: the
    rendered remainder ["10"] is compared by string equality with the
    one-character check field, which is a mismatch, neither a thrown error
    nor an acceptance. *)
Theorem kontonr_remainder_ten_is_checksum_mismatch
  (U : Util) (input value : string)
  (Hclean : Kontonr.clean input = (value, None))
  (Hlen : length value = 11)
  (Hdigits : isdigits value = true)
  (Hsum : weightedSum (substring 0 10 value) Kontonr.weights 11%Z = 10%Z) :
  Kontonr.validate input = Return (invalid InvalidChecksum).
Proof.
  unfold Kontonr.validate. rewrite Hclean, Hlen, Hdigits.
  rewrite (check_mismatch_on_ten U value Hlen Hsum). reflexivity.
Qed.

Lemma kontonr_remainder_ten_witness :
  Kontonr.validate (U := spec_util) "1000.10.00000"
  = Return (invalid InvalidChecksum).
Proof.
  apply (kontonr_remainder_ten_is_checksum_mismatch
           spec_util "1000.10.00000" "10001000000");
    reflexivity.
Defined.

(** C3. The South Africa [validate] accepts cleaned values of length
    exactly 11 or exactly 7 only: for every input whose cleaned value has
    another length it returns the invalid result with [InvalidLength], and
    every valid result comes from a cleaned value of length 11 or 7.  The
    statement holds for every implementation [U] of the helpers, so the
    result on such inputs does not depend on [luhnChecksumValidate] or
    [weightedSum]: neither checksum takes part in it. *)
Theorem kontonr_length_dispatch (U : Util) (input value : string)
  (Hclean : Kontonr.clean input = (value, None)) :
  (length value <> 11 -> length value <> 7 ->
   Kontonr.validate input = Return (invalid InvalidLength))
  /\ (forall r, Kontonr.validate input = Return r -> isValid r = true ->
      length value = 11 \/ length value = 7).
Proof.
  split.
  - intros H11 H7. unfold Kontonr.validate. rewrite Hclean.
    apply Nat.eqb_neq in H11, H7. now rewrite H11, H7.
  - intros r Hr Hv.
    destruct (kontonr_valid_inv U input r Hr Hv) as (v & Hc & _ & Hl).
    rewrite Hclean in Hc. now injection Hc as ->.
Qed.

Lemma kontonr_length_dispatch_witness :
  Kontonr.validate (U := spec_util) "12-345"
  = Return (invalid InvalidLength).
Proof.
  apply (proj1 (kontonr_length_dispatch spec_util "12-345" "12345"
                  eq_refl));
    simpl; lia.
Defined.

(** C10. The South Africa classification is constant: every valid result
    of [validate] has [isIndividual = false] and [isCompany = true],
    whatever the length variant or the leading characters. *)
Theorem kontonr_classification_constant
  (U : Util) (input : string) (r : ValidateReturn)
  (Hr : Kontonr.validate input = Return r)
  (Hvalid : isValid r = true) :
  isIndividual r = Some false /\ isCompany r = Some true.
Proof.
  destruct (kontonr_valid_inv U input r Hr Hvalid) as (v & _ & -> & _).
  split; reflexivity.
Qed.

Lemma kontonr_classification_constant_witness :
  isIndividual (valid "10000000006" false true) = Some false
  /\ isCompany (valid "10000000006" false true) = Some true.
Proof.
  apply (kontonr_classification_constant spec_util "1000.00.00006");
    reflexivity.
Defined.

(** ** Andorran NRT *)

(** C4. For every input to the Andorra [validate] whose cleaned value has
    length 8, alphabetic first and last characters, a digit middle, the
    leading character ["F"] and middle six digits strictly greater than
    ["699999"], [validate] returns the invalid result with
    [InvalidComponent], the length and alphabet checks having passed. *)
Theorem nrt_component_exclusion (U : Util) (input v : string)
  (Hclean : Nrt.clean input = (v, None))
  (Hlen : length v = 8)
  (Hfirst : isalpha (Js.at_ v 0) = true)
  (Hlast : isalpha (Js.at_ v 7) = true)
  (Hmid : isdigits (Js.substr v 1 6) = true)
  (HF : Js.at_ v 0 = "F")
  (Hrange : Js.gt (Js.substr v 1 6) "699999" = true) :
  Nrt.validate input = Return (invalid InvalidComponent).
Proof.
  unfold Nrt.validate. rewrite Hclean, Hlen.
  change (8 - 1) with 7. change (8 - 2) with 6.
  rewrite Hfirst, Hlast, Hmid, Hrange, HF. reflexivity.
Qed.

Lemma nrt_component_exclusion_witness :
  Nrt.validate (U := spec_util) "F-700000-Z"
  = Return (invalid InvalidComponent).
Proof.
  apply (nrt_component_exclusion spec_util "F-700000-Z" "F700000Z");
    reflexivity.
Defined.

(** ** Both modules *)

(** C7. Classification exclusivity: for every input on which [validate]
    (South Africa or Andorra) returns a valid result, exactly one of the
    fields [isIndividual] and [isCompany] is [true], never both, never
    neither. *)
Theorem classification_exclusive
  (U : Util) (input : string) (r : ValidateReturn)
  (Hr : Kontonr.validate input = Return r \/ Nrt.validate input = Return r)
  (Hvalid : isValid r = true) :
  exclusive r.
Proof.
  destruct Hr as [Hr | Hr].
  - destruct (kontonr_valid_inv U input r Hr Hvalid) as (v & _ & -> & _).
    right. split; reflexivity.
  - destruct (nrt_valid_inv U input r Hr Hvalid) as (v & _ & _ & ->).
    unfold exclusive. cbn [isIndividual isCompany valid].
    destruct (Js.includes "AF" (Js.at_ v 0)); [left | right];
      split; reflexivity.
Qed.

Lemma classification_exclusive_witness :
  exclusive (valid "1000264" false true)
  /\ exclusive (valid "A123456Z" true false)
  /\ exclusive (valid "U132950X" false true).
Proof.
  split; [|split].
  - apply (classification_exclusive spec_util "1000264");
      [left; reflexivity | reflexivity].
  - apply (classification_exclusive spec_util "A-123456-Z");
      [right; reflexivity | reflexivity].
  - apply (classification_exclusive spec_util "U-132950-X");
      [right; reflexivity | reflexivity].
Defined.

(** C8. [validate] never throws: for every input string, [validate]
    (South Africa and Andorra) completes by returning a result, and the
    result is one of the two object literals: the success fields with no
    error, or exactly one error kind with no success field.  Malformed
    input gets the invalid literal: the normalizer's error when [clean]
    fails, [InvalidLength] for a wrong length, [InvalidFormat] for a wrong
    character class, [InvalidComponent] (Andorra) or [InvalidChecksum]
    (South Africa) for a failed component or checksum rule; a valid
    result is returned only when every check has passed. *)
Theorem validate_never_throws (U : Util) (input : string) :
  ((exists r, Kontonr.validate input = Return r /\ well_formed r)
   /\ (forall value e,
         Kontonr.clean input = (value, Some e) ->
         Kontonr.validate input = Return (invalid e))
   /\ (forall value,
         Kontonr.clean input = (value, None) ->
         (length value <> 11 -> length value <> 7 ->
          Kontonr.validate input = Return (invalid InvalidLength))
         /\ (length value = 11 \/ length value = 7 ->
             isdigits value = false ->
             Kontonr.validate input = Return (invalid InvalidFormat))
         /\ (length value = 7 -> isdigits value = true ->
             luhnChecksumValidate value = false ->
             Kontonr.validate input = Return (invalid InvalidChecksum))
         /\ (length value = 11 -> isdigits value = true ->
             Js.String_
               (weightedSum (substring 0 10 value) Kontonr.weights 11%Z)
             <> Js.substr_from value 10 ->
             Kontonr.validate input = Return (invalid InvalidChecksum))
         /\ (forall r,
               Kontonr.validate input = Return r -> isValid r = true ->
               r = valid value false true
               /\ isdigits value = true
               /\ ((length value = 7 /\ luhnChecksumValidate value = true)
                   \/ (length value = 11
                       /\ Js.String_
                            (weightedSum (substring 0 10 value)
                               Kontonr.weights 11%Z)
                          = Js.substr_from value 10)))))
  /\ ((exists r, Nrt.validate input = Return r /\ well_formed r)
      /\ (forall v e,
            Nrt.clean input = (v, Some e) ->
            Nrt.validate input = Return (invalid e))
      /\ (forall v,
            Nrt.clean input = (v, None) ->
            (length v <> 8 ->
             Nrt.validate input = Return (invalid InvalidLength))
            /\ (length v = 8 ->
                isalpha (Js.at_ v 0) = false \/ isalpha (Js.at_ v 7) = false
                \/ isdigits (Js.substr v 1 6) = false ->
                Nrt.validate input = Return (invalid InvalidFormat))
            /\ (length v = 8 ->
                isalpha (Js.at_ v 0) = true -> isalpha (Js.at_ v 7) = true ->
                isdigits (Js.substr v 1 6) = true ->
                Js.includes "ACDEFGLOPU" (Js.at_ v 0) = false
                \/ Js.strict_eq (Js.at_ v 0) "F"
                   && Js.gt (Js.substr v 1 6) "699999" = true
                \/ Js.includes "AL" (Js.at_ v 0)
                   && Js.gt (Js.substr v 1 6) "699999"
                   && Js.lt (Js.substr v 1 6) "800000" = true ->
                Nrt.validate input = Return (invalid InvalidComponent))
            /\ (forall r,
                  Nrt.validate input = Return r -> isValid r = true ->
                  r = valid v (Js.includes "AF" (Js.at_ v 0))
                              (negb (Js.includes "AF" (Js.at_ v 0)))
                  /\ length v = 8
                  /\ isalpha (Js.at_ v 0) = true
                  /\ isalpha (Js.at_ v 7) = true
                  /\ isdigits (Js.substr v 1 6) = true
                  /\ Js.includes "ACDEFGLOPU" (Js.at_ v 0) = true
                  /\ Js.strict_eq (Js.at_ v 0) "F"
                     && Js.gt (Js.substr v 1 6) "699999" = false
                  /\ Js.includes "AL" (Js.at_ v 0)
                     && Js.gt (Js.substr v 1 6) "699999"
                     && Js.lt (Js.substr v 1 6) "800000" = false))).
Proof.
  split; split; try apply kontonr_validate_cases;
    try apply nrt_validate_cases; split.
  - intros value e Hc. unfold Kontonr.validate. now rewrite Hc.
  - intros value Hc. repeat split.
    + intros H11 H7. unfold Kontonr.validate. rewrite Hc.
      apply Nat.eqb_neq in H11, H7. now rewrite H11, H7.
    + intros Hlen Hd. unfold Kontonr.validate. rewrite Hc, Hd.
      destruct Hlen as [-> | ->]; reflexivity.
    + intros Hlen Hd Hluhn. unfold Kontonr.validate.
      now rewrite Hc, Hlen, Hd, Hluhn.
    + intros Hlen Hd Hsum. unfold Kontonr.validate. rewrite Hc, Hlen, Hd.
      cbn [Nat.eqb negb andb]. rewrite (check_mismatch_11 U value Hlen).
      apply String.eqb_neq in Hsum. now rewrite Hsum.
    + destruct (kontonr_valid_inv U input r H H0) as (w & Hw & -> & _).
      rewrite Hc in Hw. now injection Hw as <-.
    + destruct (kontonr_valid_inv U input r H H0) as (w & Hw & -> & _).
      rewrite Hc in Hw. injection Hw as <-.
      now apply (kontonr_valid_checks U input value Hc).
    + destruct (kontonr_valid_inv U input r H H0) as (w & Hw & -> & _).
      rewrite Hc in Hw. injection Hw as <-.
      now apply (kontonr_valid_checks U input value Hc).
  - intros v e Hc. unfold Nrt.validate. now rewrite Hc.
  - intros v Hc. split; [|split; [|split]].
    + intros Hlen. unfold Nrt.validate. rewrite Hc.
      apply Nat.eqb_neq in Hlen. now rewrite Hlen.
    + intros Hlen H. unfold Nrt.validate. rewrite Hc, Hlen.
      change (8 - 1) with 7. change (8 - 2) with 6. cbn [Nat.eqb negb].
      destruct H as [H | [H | H]]; rewrite H.
      * reflexivity.
      * now destruct (isalpha (Js.at_ v 0)).
      * now destruct (isalpha (Js.at_ v 0)), (isalpha (Js.at_ v 7)).
    + intros Hlen Ha Hz Hd H. unfold Nrt.validate. rewrite Hc, Hlen.
      change (8 - 1) with 7. change (8 - 2) with 6.
      rewrite Ha, Hz, Hd. cbn [Nat.eqb negb orb].
      destruct H as [H | [H | H]].
      * now rewrite H.
      * rewrite H. now destruct (Js.includes "ACDEFGLOPU" (Js.at_ v 0)).
      * rewrite H. destruct (Js.includes "ACDEFGLOPU" (Js.at_ v 0));
          [|reflexivity].
        now destruct (Js.strict_eq (Js.at_ v 0) "F"
                      && Js.gt (Js.substr v 1 6) "699999").
    + intros r Hr Hv.
      destruct (nrt_valid_inv U input r Hr Hv) as (w & Hw & _ & Hrw).
      destruct (nrt_valid_checks U input r Hr Hv) as (w' & Hw' & Hrest).
      rewrite Hc in Hw, Hw'. injection Hw as <-. injection Hw' as <-.
      split; [exact Hrw | exact Hrest].
Qed.

Lemma validate_never_throws_witness :
  Kontonr.validate (U := spec_util) "12#45" = Return (invalid InvalidFormat)
  /\ Kontonr.validate (U := spec_util) "12-345"
     = Return (invalid InvalidLength)
  /\ Kontonr.validate (U := spec_util) "1000265"
     = Return (invalid InvalidChecksum)
  /\ Nrt.validate (U := spec_util) "F-70000-Z"
     = Return (invalid InvalidLength)
  /\ Nrt.validate (U := spec_util) "F-7x0000-Z"
     = Return (invalid InvalidFormat)
  /\ Nrt.validate (U := spec_util) "B-123456-Z"
     = Return (invalid InvalidComponent).
Proof.
  destruct (validate_never_throws spec_util "12#45") as [[_ [K1 _]] _].
  destruct (validate_never_throws spec_util "12-345") as [[_ [_ K2]] _].
  destruct (validate_never_throws spec_util "1000265") as [[_ [_ K3]] _].
  destruct (validate_never_throws spec_util "F-70000-Z") as [_ [_ [_ N4]]].
  destruct (validate_never_throws spec_util "F-7x0000-Z") as [_ [_ [_ N5]]].
  destruct (validate_never_throws spec_util "B-123456-Z") as [_ [_ [_ N6]]].
  split; [|split; [|split; [|split; [|split]]]].
  - exact (K1 "" InvalidFormat eq_refl).
  - apply (proj1 (K2 "12345" eq_refl)); simpl; lia.
  - apply (proj1 (proj2 (proj2 (K3 "1000265" eq_refl)))); reflexivity.
  - apply (proj1 (N4 "F70000Z" eq_refl)). simpl; lia.
  - apply (proj1 (proj2 (N5 "F7X0000Z" eq_refl)));
      [reflexivity | right; right; reflexivity].
  - apply (proj1 (proj2 (proj2 (N6 "B123456Z" eq_refl))));
      [reflexivity | reflexivity | reflexivity | reflexivity
      | left; reflexivity].
Defined.

(** C6 (as amended). In the Andorra module [format] is [compact] followed
    by pattern formatting: whenever [compact] fails, [format] fails with
    the same error, and [format] succeeds only when [compact] does.  In
    the South Africa module [format] calls [clean], drops its error and
    pads, splits and joins the value [clean] returned: it returns a
    display string for every input. *)
Theorem format_after_compact (U : Util) (input : string) :
  (forall e, Nrt.compact input = Throw e -> Nrt.format input = Throw e)
  /\ (forall s, Nrt.format input = Return s ->
      exists v, Nrt.compact input = Return v
                /\ s = formatPattern "?-??????-?" v)
  /\ Kontonr.format input
     = Return (Js.join "."
                 (splitAt (Js.padStart (fst (Kontonr.clean input)) 11 "0")
                          [4; 6]%Z)).
Proof.
  split; [|split].
  - intros e He. unfold Nrt.format. now rewrite He.
  - unfold Nrt.format. intros s Hs.
    destruct (Nrt.compact input) as [v | e]; simpl in Hs.
    + injection Hs as <-. now exists v.
    + discriminate Hs.
  - unfold Kontonr.format. now destruct (Kontonr.clean input).
Qed.

Lemma format_after_compact_witness :
  Nrt.format (U := spec_util) "a#" = Throw InvalidFormat.
Proof.
  apply (proj1 (format_after_compact spec_util "a#")). reflexivity.
Defined.

(** C6 fails as stated: on the input ["#"] the South Africa [compact]
    throws [InvalidFormat] while [format] returns a display string. *)
Lemma kontonr_format_drops_clean_error :
  Kontonr.compact (U := spec_util) "#" = Throw InvalidFormat
  /\ Kontonr.format (U := spec_util) "#" = Return "0000.00.00000"
  /\ ~ (forall (U : Util) (input : string) (e : ErrorKind),
         Kontonr.compact input = Throw e ->
         Kontonr.format input = Throw e).
Proof.
  split; [reflexivity | split; [reflexivity|]].
  intros H. specialize (H spec_util "#" InvalidFormat eq_refl).
  discriminate H.
Qed.

(** ** The modules over the helpers of the specification *)

(** *** Characters *)

Ltac by_code_unit c :=
  destruct c as [[] [] [] [] [] [] [] []];
  try reflexivity; try discriminate.

Lemma alnum_not_separator (c : ascii) :
  SpecModel.is_alnum c = true -> SpecModel.mem_char c " -." = false.
Proof. by_code_unit c. Qed.

Lemma upper_alnum (c : ascii) :
  SpecModel.is_alnum c = true ->
  SpecModel.is_alnum (SpecModel.upper_ascii c) = true.
Proof. by_code_unit c. Qed.

Lemma upper_idempotent (c : ascii) :
  SpecModel.upper_ascii (SpecModel.upper_ascii c) = SpecModel.upper_ascii c.
Proof. by_code_unit c. Qed.

(** *** The normalizer *)

Lemma all_chars_app (p : ascii -> bool) (a b : string) :
  SpecModel.all_chars p (a ++ b)
  = SpecModel.all_chars p a && SpecModel.all_chars p b.
Proof.
  induction a as [|c a IH]; simpl.
  - reflexivity.
  - now rewrite IH, andb_assoc.
Qed.

Lemma all_chars_substr_from (p : ascii -> bool) (n : nat) (v : string) :
  SpecModel.all_chars p v = true ->
  SpecModel.all_chars p (Js.substr_from v n) = true.
Proof.
  revert v; induction n as [|n IH]; intros v Hv.
  - exact Hv.
  - destruct v as [|c v]; simpl in *; [reflexivity|].
    apply andb_true_iff in Hv. now apply IH.
Qed.

Lemma alnum_upper (v : string) :
  alnum v = true -> alnum (SpecModel.toLocaleUpperCase v) = true.
Proof.
  unfold SpecModel.toLocaleUpperCase.
  induction v as [|c v IH]; simpl; [reflexivity|].
  intros H. apply andb_true_iff in H as [Hc Hv].
  now rewrite (upper_alnum c Hc), (IH Hv).
Qed.

Lemma toLocaleUpperCase_idempotent (v : string) :
  SpecModel.toLocaleUpperCase (SpecModel.toLocaleUpperCase v)
  = SpecModel.toLocaleUpperCase v.
Proof.
  unfold SpecModel.toLocaleUpperCase.
  induction v as [|c v IH]; simpl; [reflexivity|].
  now rewrite upper_idempotent, IH.
Qed.

Lemma upper_substr_from (n : nat) (v : string) :
  SpecModel.toLocaleUpperCase (Js.substr_from v n)
  = Js.substr_from (SpecModel.toLocaleUpperCase v) n.
Proof.
  unfold SpecModel.toLocaleUpperCase.
  revert v; induction n as [|n IH]; intros v.
  - reflexivity.
  - destruct v as [|c v]; simpl; [reflexivity | apply IH].
Qed.

Lemma strip_app (seps a b : string) :
  SpecModel.strip seps (a ++ b)
  = SpecModel.strip seps a ++ SpecModel.strip seps b.
Proof.
  induction a as [|c a IH]; simpl; [reflexivity|].
  destruct (SpecModel.mem_char c seps); simpl; now rewrite IH.
Qed.

(** A string of letters and digits holds no separator: stripping leaves
    it alone. *)
Lemma strip_alnum (v : string) : alnum v = true -> stripped v = v.
Proof.
  induction v as [|c v IH]; [reflexivity|].
  intros H. simpl in H. apply andb_true_iff in H as [Hc Hv].
  cbn [SpecModel.strip]. now rewrite (alnum_not_separator c Hc), (IH Hv).
Qed.

(** What the normalizer returns on success: letters and digits, in upper
    case. *)
Lemma cleanUnicode_ok (x c : string) :
  SpecModel.cleanUnicode x " -." = (c, None) ->
  alnum c = true /\ SpecModel.toLocaleUpperCase c = c.
Proof.
  unfold SpecModel.cleanUnicode.
  destruct (alnum (stripped x)) eqn:Hall; intros H.
  - injection H as <-. split.
    + now apply alnum_upper.
    + apply toLocaleUpperCase_idempotent.
  - discriminate H.
Qed.

(** The normalizer leaves upper-case letters and digits unchanged. *)
Lemma cleanUnicode_fixed (v : string) :
  alnum v = true -> SpecModel.toLocaleUpperCase v = v ->
  SpecModel.cleanUnicode v " -." = (v, None).
Proof.
  intros Hv Hu. unfold SpecModel.cleanUnicode.
  now rewrite (strip_alnum v Hv), Hv, Hu.
Qed.

(** The normalizer sees no difference between two inputs that strip to
    the same string. *)
Lemma cleanUnicode_strip (a b : string) :
  stripped a = stripped b ->
  SpecModel.cleanUnicode a " -." = SpecModel.cleanUnicode b " -.".
Proof.
  intros H. unfold SpecModel.cleanUnicode. now rewrite H.
Qed.

(** *** Display strings *)

(** Stripping the separators from the dotted display form gives what
    stripping them from the undotted string gives. *)
Lemma strip_display (w : string) :
  stripped (Js.join "." (splitAt w [4; 6]%Z)) = stripped w.
Proof.
  destruct (splitAt_4_6 w) as [-> Hw]. rewrite <- Hw at 4.
  unfold Js.join. cbn [concat]. now rewrite !strip_app.
Qed.

(** Stripping the separators from a filled template whose literal tokens
    are separators gives back the value that filled it. *)
Lemma strip_fill_alnum (pattern v : string) :
  SpecModel.all_chars
    (fun t => SpecModel.is_placeholder t || SpecModel.mem_char t " -.")
    pattern = true ->
  alnum v = true ->
  length v = SpecModel.placeholders pattern ->
  stripped (SpecModel.fill pattern v) = v.
Proof.
  revert v; induction pattern as [|t rest IH]; intros v Hp Hv Hlen.
  - destruct v; [reflexivity | discriminate Hlen].
  - cbn [SpecModel.all_chars] in Hp. apply andb_true_iff in Hp as [Ht Hp].
    cbn [SpecModel.fill SpecModel.placeholders] in *.
    destruct (SpecModel.is_placeholder t).
    + destruct v as [|c v]; [discriminate Hlen|].
      cbn [SpecModel.all_chars] in Hv.
      apply andb_true_iff in Hv as [Hc Hv].
      cbn [SpecModel.strip]. rewrite (alnum_not_separator c Hc).
      f_equal. apply IH; [exact Hp | exact Hv |].
      simpl in Hlen. now injection Hlen.
    + cbn [SpecModel.strip]. rewrite orb_false_l in Ht. rewrite Ht.
      now apply IH.
Qed.

(** *** [compact] *)

Lemma kontonr_compact_ok (x v : string) :
  Kontonr.compact (U := spec_util) x = Return v ->
  Kontonr.clean (U := spec_util) x = (v, None)
  /\ alnum v = true /\ SpecModel.toLocaleUpperCase v = v.
Proof.
  unfold Kontonr.compact.
  destruct (Kontonr.clean x) as [w [e|]] eqn:Hclean; intros H.
  - discriminate H.
  - injection H as <-. split; [reflexivity|].
    unfold Kontonr.clean in Hclean. cbn [cleanUnicode spec_util] in Hclean.
    destruct (SpecModel.cleanUnicode x " -.") as [c [e|]] eqn:Hc;
      [discriminate|].
    apply cleanUnicode_ok in Hc as [Hc Hu].
    destruct (Js.startsWith c "0000"); injection Hclean as <-.
    + split; [exact (all_chars_substr_from _ 4 c Hc)|].
      pose proof (upper_substr_from 4 c) as Hs. rewrite Hu in Hs.
      exact Hs.
    + now split.
Qed.

(** On upper-case letters and digits the South African [compact] cuts a
    leading ["0000"] and returns the rest. *)
Lemma kontonr_compact_alnum (v : string) :
  alnum v = true -> SpecModel.toLocaleUpperCase v = v ->
  Kontonr.compact (U := spec_util) v
  = Return (if Js.startsWith v "0000" then Js.substr_from v 4 else v).
Proof.
  intros Hv Hu. unfold Kontonr.compact, Kontonr.clean.
  cbn [cleanUnicode spec_util]. rewrite (cleanUnicode_fixed v Hv Hu).
  now destruct (Js.startsWith v "0000").
Qed.

Lemma kontonr_compact_strip (a b : string) :
  stripped a = stripped b ->
  Kontonr.compact (U := spec_util) a = Kontonr.compact (U := spec_util) b.
Proof.
  intros H. unfold Kontonr.compact, Kontonr.clean.
  cbn [cleanUnicode spec_util]. now rewrite (cleanUnicode_strip a b H).
Qed.

(** The South African [compact] of a compacted value that does not start
    with ["0000"] is that value. *)
Lemma kontonr_compact_compacted (x v : string) :
  Kontonr.compact (U := spec_util) x = Return v ->
  Js.startsWith v "0000" = false ->
  Kontonr.compact (U := spec_util) v = Return v.
Proof.
  intros Hx Hp. apply kontonr_compact_ok in Hx as (_ & Hv & Hu).
  now rewrite (kontonr_compact_alnum v Hv Hu), Hp.
Qed.

(** What the Andorran [compact] returns is what the normalizer returned:
    upper-casing it changed nothing. *)
Lemma nrt_compact_ok (x v : string) :
  Nrt.compact (U := spec_util) x = Return v ->
  Nrt.clean (U := spec_util) x = (v, None)
  /\ alnum v = true /\ SpecModel.toLocaleUpperCase v = v.
Proof.
  unfold Nrt.compact, Nrt.clean. cbn [cleanUnicode toLocaleUpperCase spec_util].
  destruct (SpecModel.cleanUnicode x " -.") as [c [e|]] eqn:Hc; intros H.
  - discriminate H.
  - injection H as <-. apply cleanUnicode_ok in Hc as [Hc Hu].
    rewrite Hu. now repeat split.
Qed.

Lemma nrt_compact_alnum (v : string) :
  alnum v = true -> SpecModel.toLocaleUpperCase v = v ->
  Nrt.compact (U := spec_util) v = Return v.
Proof.
  intros Hv Hu. unfold Nrt.compact, Nrt.clean.
  cbn [cleanUnicode toLocaleUpperCase spec_util].
  now rewrite (cleanUnicode_fixed v Hv Hu), Hu.
Qed.

Lemma nrt_compact_strip (a b : string) :
  stripped a = stripped b ->
  Nrt.compact (U := spec_util) a = Nrt.compact (U := spec_util) b.
Proof.
  intros H. unfold Nrt.compact, Nrt.clean.
  cbn [cleanUnicode spec_util]. now rewrite (cleanUnicode_strip a b H).
Qed.

Lemma nrt_validate_strip (a b : string) :
  stripped a = stripped b ->
  Nrt.validate (U := spec_util) a = Nrt.validate (U := spec_util) b.
Proof.
  intros H. unfold Nrt.validate, Nrt.clean.
  cbn [cleanUnicode spec_util]. now rewrite (cleanUnicode_strip a b H).
Qed.

(** The Andorran [compact] of a compacted value is that value. *)
Lemma nrt_compact_compacted (x v : string) :
  Nrt.compact (U := spec_util) x = Return v ->
  Nrt.compact (U := spec_util) v = Return v /\ alnum v = true.
Proof.
  intros Hx. apply nrt_compact_ok in Hx as (_ & Hv & Hu).
  split; [|exact Hv]. now apply nrt_compact_alnum.
Qed.

(** [validate] sees a compacted value as it saw the input. *)
Lemma nrt_validate_compacted (x v : string) :
  Nrt.compact (U := spec_util) x = Return v ->
  Nrt.validate (U := spec_util) v = Nrt.validate (U := spec_util) x.
Proof.
  intros Hx. apply nrt_compact_ok in Hx as (Hc & Hv & Hu).
  unfold Nrt.validate. rewrite Hc. unfold Nrt.clean.
  cbn [cleanUnicode spec_util]. now rewrite (cleanUnicode_fixed v Hv Hu).
Qed.

(** C9 (as amended). The Andorra [validate] does not upper-case by
    itself and [compact] upper-cases what the normalizer returned, but
    the normalizer already returns its value in upper case: for every
    input [x] on which [compact] succeeds, [compact(x)] is the cleaned
    value [validate] checks, and [validate(compact(x))] returns the same
    result as [validate(x)].  A lower-case but otherwise well-formed
    NRT is accepted by both. *)
Theorem nrt_validate_agrees_with_compact (x v : string)
  (Hx : Nrt.compact (U := spec_util) x = Return v) :
  Nrt.clean (U := spec_util) x = (v, None)
  /\ Nrt.validate (U := spec_util) v = Nrt.validate (U := spec_util) x.
Proof.
  split.
  - now apply nrt_compact_ok in Hx.
  - now apply nrt_validate_compacted.
Qed.

Lemma nrt_validate_agrees_with_compact_witness :
  Nrt.clean (U := spec_util) "a-123456-z" = ("A123456Z", None)
  /\ Nrt.validate (U := spec_util) "A123456Z"
     = Nrt.validate (U := spec_util) "a-123456-z".
Proof.
  apply (nrt_validate_agrees_with_compact "a-123456-z" "A123456Z").
  reflexivity.
Defined.

(** C9 fails as stated: on the lower-case input ["a123456z"] [compact]
    succeeds, and [validate] of the input is valid, as [validate] of the
    compacted value is; no input makes the two disagree. *)
Lemma nrt_validate_accepts_lower_case :
  Nrt.compact (U := spec_util) "a123456z" = Return "A123456Z"
  /\ Nrt.validate (U := spec_util) "A123456Z"
     = Return (valid "A123456Z" true false)
  /\ Nrt.validate (U := spec_util) "a123456z"
     = Return (valid "A123456Z" true false)
  /\ ~ (exists (x v : string) (e : ErrorKind),
         Nrt.compact (U := spec_util) x = Return v
         /\ Nrt.validate (U := spec_util) v = Return (valid v true false)
         /\ Nrt.validate (U := spec_util) x = Return (invalid e)).
Proof.
  split; [reflexivity | split; [reflexivity | split; [reflexivity|]]].
  intros (x & v & e & Hx & Hv & He).
  rewrite (nrt_validate_compacted x v Hx), He in Hv. discriminate Hv.
Qed.

(** C2 (as amended). [compact] is idempotent in the Andorra module: for
    every input [x] on which it succeeds, [compact(compact(x))] equals
    [compact(x)].  In the South Africa module, for every input [x] on
    which [compact] succeeds, [compact(compact(x))] equals [compact(x)]
    exactly when [compact(x)] does not start with ["0000"]: [clean] cuts
    one leading ["0000"] only, and a value that still starts with
    ["0000"] is cut again. *)
Theorem compact_idempotent_unless_zero_run (x v : string) :
  (Nrt.compact (U := spec_util) x = Return v ->
   Nrt.compact (U := spec_util) v = Return v)
  /\ (Kontonr.compact (U := spec_util) x = Return v ->
      (Kontonr.compact (U := spec_util) v = Return v
       <-> Js.startsWith v "0000" = false)).
Proof.
  split.
  - intros Hx. now apply nrt_compact_compacted in Hx.
  - intros Hx. split.
    + intros Hv. destruct (Js.startsWith v "0000") eqn:Hp; [|reflexivity].
      apply kontonr_compact_ok in Hx as (_ & Ha & Hu).
      rewrite (kontonr_compact_alnum v Ha Hu), Hp in Hv.
      injection Hv as Hv. now apply cut_prefix_differs in Hv.
    + now apply kontonr_compact_compacted with (x := x).
Qed.

Lemma compact_idempotent_witness :
  Nrt.compact (U := spec_util) "A123456Z" = Return "A123456Z"
  /\ Kontonr.compact (U := spec_util) "10000000006" = Return "10000000006".
Proof.
  split.
  - apply (proj1 (compact_idempotent_unless_zero_run
                    "a-123456 z" "A123456Z")).
    reflexivity.
  - apply (proj2 (compact_idempotent_unless_zero_run
                    "1000.00.00006" "10000000006"));
      reflexivity.
Defined.

(** C2 fails as stated: the South African [compact] of ["00000000123"]
    is ["0000123"], and compacting that again gives ["123"]. *)
Lemma kontonr_compact_not_idempotent :
  Kontonr.compact (U := spec_util) "00000000123" = Return "0000123"
  /\ (v <- Kontonr.compact (U := spec_util) "00000000123" ;;
      Kontonr.compact (U := spec_util) v) = Return "123"
  /\ (v <- Kontonr.compact (U := spec_util) "00000000123" ;;
      Kontonr.compact (U := spec_util) v)
     <> Kontonr.compact (U := spec_util) "00000000123".
Proof.
  split; [reflexivity | split; [reflexivity | discriminate]].
Qed.

(** *** [format], then [compact] *)

Lemma kontonr_roundtrip (v : string) (r : ValidateReturn) :
  Kontonr.compact (U := spec_util) v = Return v ->
  Kontonr.validate (U := spec_util) v = Return r ->
  isValid r = true ->
  (s <- Kontonr.format (U := spec_util) v ;;
   Kontonr.compact (U := spec_util) s) = Return v.
Proof.
  intros Hc Hr Hvalid.
  destruct (kontonr_compact_ok v v Hc) as (Hclean & Halnum & Hupper).
  destruct (kontonr_valid_inv spec_util v r Hr Hvalid)
    as (w & Hw & _ & Hlen).
  rewrite Hclean in Hw. injection Hw as <-.
  unfold Kontonr.format. rewrite Hclean. cbn [bind].
  rewrite (kontonr_compact_strip _ _ (strip_display _)).
  unfold Js.padStart. destruct Hlen as [Hlen | Hlen]; rewrite Hlen.
  - exact Hc.
  - change (Js.repeat_char "0" (11 - 7) ++ v) with ("0000" ++ v).
    rewrite kontonr_compact_alnum.
    + now rewrite startsWith_padded.
    + now rewrite all_chars_app, Halnum.
    + change (SpecModel.toLocaleUpperCase ("0000" ++ v))
        with ("0000" ++ SpecModel.toLocaleUpperCase v).
      now rewrite Hupper.
Qed.

Lemma nrt_roundtrip (v : string) (r : ValidateReturn) :
  Nrt.compact (U := spec_util) v = Return v ->
  alnum v = true ->
  Nrt.validate (U := spec_util) v = Return r ->
  isValid r = true ->
  (s <- Nrt.format (U := spec_util) v ;;
   Nrt.compact (U := spec_util) s) = Return v.
Proof.
  intros Hc Halnum Hr Hvalid.
  destruct (nrt_compact_ok v v Hc) as (Hclean & _ & _).
  destruct (nrt_valid_inv spec_util v r Hr Hvalid) as (w & Hw & Hlen & _).
  rewrite Hclean in Hw. injection Hw as <-.
  unfold Nrt.format. rewrite Hc. cbn [bind formatPattern spec_util].
  unfold SpecModel.formatPattern, Js.padStart. rewrite Hlen.
  change (Js.repeat_char "0" (SpecModel.placeholders "?-??????-?" - 8) ++ v)
    with v.
  rewrite <- Hc. apply nrt_compact_strip.
  rewrite (strip_alnum v Halnum).
  now apply strip_fill_alnum.
Qed.

(** C5 (as amended). Round-trip: for every cleaned value [v] (a value
    [compact] returns) for which [validate(v)] returns a valid result and
    which, in the South Africa module, does not start with ["0000"],
    [compact(format(v))] equals [v].  Formatting reinserts only separators
    (and, for South Africa, left-pads to the 11-digit display form with
    ['0']), and compacting the display string recovers the cleaned
    form. *)
Theorem roundtrip_on_cleaned_values (x v : string) (r : ValidateReturn) :
  (Kontonr.compact (U := spec_util) x = Return v ->
   Js.startsWith v "0000" = false ->
   Kontonr.validate (U := spec_util) v = Return r ->
   isValid r = true ->
   (s <- Kontonr.format (U := spec_util) v ;;
    Kontonr.compact (U := spec_util) s) = Return v)
  /\ (Nrt.compact (U := spec_util) x = Return v ->
      Nrt.validate (U := spec_util) v = Return r ->
      isValid r = true ->
      (s <- Nrt.format (U := spec_util) v ;;
       Nrt.compact (U := spec_util) s) = Return v).
Proof.
  split.
  - intros Hx Hp. apply kontonr_roundtrip.
    now apply kontonr_compact_compacted with (x := x).
  - intros Hx. apply nrt_compact_compacted in Hx as [Hv Ha].
    now apply nrt_roundtrip.
Qed.

Lemma roundtrip_witness :
  (s <- Kontonr.format (U := spec_util) "1000264" ;;
   Kontonr.compact (U := spec_util) s) = Return "1000264"
  /\ (s <- Kontonr.format (U := spec_util) "10000000006" ;;
      Kontonr.compact (U := spec_util) s) = Return "10000000006"
  /\ (s <- Nrt.format (U := spec_util) "U132950X" ;;
      Nrt.compact (U := spec_util) s) = Return "U132950X".
Proof.
  split; [|split].
  - apply (proj1 (roundtrip_on_cleaned_values
                    "0000.10.00264" "1000264"
                    (valid "1000264" false true)));
      reflexivity.
  - apply (proj1 (roundtrip_on_cleaned_values
                    "1000.00.00006" "10000000006"
                    (valid "10000000006" false true)));
      reflexivity.
  - apply (proj2 (roundtrip_on_cleaned_values
                    "u-132950-x" "U132950X"
                    (valid "U132950X" false true)));
      reflexivity.
Defined.

(** C5 fails as stated: ["00001000264"] is a cleaned value of the South
    Africa module (the [compact] of ["0000.0000.10.00264"]: digits only,
    no separator) and [validate] accepts it, yet [compact(format(v))] is
    ["1000264"]. *)
Lemma kontonr_roundtrip_fails_on_zero_run :
  Kontonr.compact (U := spec_util) "0000.0000.10.00264"
  = Return "00001000264"
  /\ Kontonr.validate (U := spec_util) "00001000264"
     = Return (valid "1000264" false true)
  /\ Kontonr.format (U := spec_util) "00001000264" = Return "0000.10.00264"
  /\ (s <- Kontonr.format (U := spec_util) "00001000264" ;;
      Kontonr.compact (U := spec_util) s) = Return "1000264"
  /\ (s <- Kontonr.format (U := spec_util) "00001000264" ;;
      Kontonr.compact (U := spec_util) s) <> Return "00001000264".
Proof.
  repeat (split; [reflexivity|]). discriminate.
Qed.

(** * Further properties of the two modules *)

(** ** More on strings *)

Lemma substring_length (n m : nat) (s : string) :
  length (substring n m s) = Nat.min m (length s - n).
Proof.
  revert n m; induction s as [|c s IH]; intros n m.
  - destruct n, m; reflexivity.
  - destruct n as [|n].
    + destruct m as [|m]; [reflexivity|]. simpl. now rewrite IH, Nat.sub_0_r.
    + simpl. apply IH.
Qed.

Lemma append_length (a b : string) :
  length (a ++ b) = length a + length b.
Proof.
  induction a as [|c a IH]; simpl; [reflexivity | now rewrite IH].
Qed.

Lemma repeat_char_length (c : ascii) (n : nat) :
  length (Js.repeat_char c n) = n.
Proof.
  induction n as [|n IH]; simpl; [reflexivity | now rewrite IH].
Qed.

Lemma padStart_length (v : string) (n : nat) (c : ascii) :
  length (Js.padStart v n c) = Nat.max n (length v).
Proof.
  unfold Js.padStart. rewrite append_length, repeat_char_length. lia.
Qed.

(** A string is its prefix followed by what [substr] leaves. *)
Lemma prefix_split (p v : string) :
  prefix p v = true -> v = p ++ Js.substr_from v (length p).
Proof.
  revert v; induction p as [|a p IH]; intros v H.
  - reflexivity.
  - destruct v as [|b v]; simpl in H; [discriminate H|].
    destruct (ascii_dec a b) as [<-|]; [|discriminate H].
    simpl. f_equal. now apply IH.
Qed.

(** The decimal rendering of a remainder below eleven: one digit
    character up to nine, two characters for ten. *)
Lemma String_small (n : Z) :
  (0 <= n < 11)%Z ->
  (n <= 9 /\ Js.String_ n = String (ascii_of_N (Z.to_N (48 + n))) "")%Z
  \/ (n = 10%Z /\ Js.String_ n = "10").
Proof.
  intros Hn. rewrite <- (Z2Nat.id n) by lia.
  assert (Hk : Z.to_nat n < 11) by lia.
  destruct (Z.to_nat n) as [|k]; [left; split; [lia | reflexivity]|].
  do 9 (destruct k as [|k]; [left; split; [lia | reflexivity]|]).
  destruct k as [|k]; [right; split; reflexivity | lia].
Qed.

(** ** South African TIN: what [validate] accepts *)

(** X1. The South Africa [validate] accepts an input exactly when its
    cleaned value passes the digit check and either has 7 characters and
    passes the Luhn check, or has 11 characters of which the last is the
    decimal rendering of the weighted sum of the first ten.  The 7-digit
    variant never consults the weighted sum and the 11-digit variant never
    consults the Luhn check. *)
Theorem kontonr_validity_criterion (U : Util) (input value : string)
  (Hclean : Kontonr.clean input = (value, None)) :
  Kontonr.validate input = Return (valid value false true)
  <-> isdigits value = true
      /\ ((length value = 7 /\ luhnChecksumValidate value = true)
          \/ (length value = 11
              /\ Js.String_
                   (weightedSum (substring 0 10 value) Kontonr.weights 11%Z)
                 = Js.substr_from value 10)).
Proof.
  split; [now apply kontonr_valid_checks|].
  intros [Hd [[Hlen Hluhn] | [Hlen Hsum]]];
    unfold Kontonr.validate; rewrite Hclean, Hlen, Hd.
  - now rewrite Hluhn.
  - cbn [Nat.eqb negb andb]. rewrite (check_mismatch_11 U value Hlen), Hsum.
    now rewrite String.eqb_refl.
Qed.

Lemma kontonr_validity_criterion_witness :
  Kontonr.validate (U := spec_util) "1000.00.00006"
  = Return (valid "10000000006" false true)
  /\ Kontonr.validate (U := spec_util) "1000264"
     = Return (valid "1000264" false true).
Proof.
  split.
  - apply (proj2 (kontonr_validity_criterion
                    spec_util "1000.00.00006" "10000000006" eq_refl)).
    split; [reflexivity | right; split; reflexivity].
  - apply (proj2 (kontonr_validity_criterion
                    spec_util "1000264" "1000264" eq_refl)).
    split; [reflexivity | left; split; reflexivity].
Defined.

(** X2. The check digit of the 11-digit variant is unique: two accepted
    cleaned values of 11 characters that agree on their first ten
    characters are the same value. *)
Theorem kontonr_check_digit_unique (U : Util) (i1 i2 v1 v2 : string)
  (Hc1 : Kontonr.clean i1 = (v1, None))
  (Hc2 : Kontonr.clean i2 = (v2, None))
  (Hl1 : length v1 = 11)
  (Hl2 : length v2 = 11)
  (Hfront : substring 0 10 v1 = substring 0 10 v2)
  (Hv1 : Kontonr.validate i1 = Return (valid v1 false true))
  (Hv2 : Kontonr.validate i2 = Return (valid v2 false true)) :
  v1 = v2.
Proof.
  destruct (kontonr_valid_checks U i1 v1 Hc1 Hv1) as [_ [[H _] | [_ H1]]];
    [lia|].
  destruct (kontonr_valid_checks U i2 v2 Hc2 Hv2) as [_ [[H _] | [_ H2]]];
    [lia|].
  rewrite <- (substring_then_rest 10 v1), <- (substring_then_rest 10 v2).
  now rewrite <- H1, <- H2, Hfront.
Qed.

Lemma kontonr_check_digit_unique_witness :
  "10000000006" = "10000000006".
Proof.
  apply (kontonr_check_digit_unique
           spec_util "1000.00.00006" "10000000006"
           "10000000006" "10000000006");
    reflexivity.
Defined.

(** X3. When the weighted sum is a remainder modulo 11, an accepted
    11-digit value has a remainder of at most 9 and its last character is
    the digit of that remainder: a front whose remainder is 10 has no
    valid check digit. *)
Theorem kontonr_check_digit_is_remainder (U : Util) (input value : string)
  (Hclean : Kontonr.clean input = (value, None))
  (Hlen : length value = 11)
  (Hrange : (0 <= weightedSum (substring 0 10 value) Kontonr.weights 11
             < 11)%Z)
  (Hvalid : Kontonr.validate input = Return (valid value false true)) :
  (weightedSum (substring 0 10 value) Kontonr.weights 11 <= 9)%Z
  /\ Js.substr_from value 10
     = String
         (ascii_of_N
            (Z.to_N
               (48 + weightedSum (substring 0 10 value) Kontonr.weights 11)))
         "".
Proof.
  destruct (kontonr_valid_checks U input value Hclean Hvalid)
    as [_ [[H _] | [_ Hsum]]]; [lia|].
  destruct (String_small _ Hrange) as [[Hle Hs] | [Hten Hs]].
  - split; [exact Hle | now rewrite <- Hsum].
  - exfalso. rewrite Hs in Hsum. apply (f_equal length) in Hsum.
    rewrite substr_from_length, Hlen in Hsum. discriminate Hsum.
Qed.

Lemma kontonr_check_digit_is_remainder_witness :
  (weightedSum (Util := spec_util) (substring 0 10 "10000000006")
     Kontonr.weights 11 <= 9)%Z
  /\ Js.substr_from "10000000006" 10
     = String
         (ascii_of_N
            (Z.to_N
               (48 + weightedSum (Util := spec_util)
                       (substring 0 10 "10000000006") Kontonr.weights 11)))
         "".
Proof.
  apply (kontonr_check_digit_is_remainder
           spec_util "1000.00.00006" "10000000006");
    [reflexivity | reflexivity
    | vm_compute; split; [discriminate | reflexivity]
    | reflexivity].
Defined.

(** ** South African TIN: [clean], [compact] and [format] *)

(** X4. [clean] hands the normalizer's error on unchanged, and on success
    returns the normalized value less at most one leading ["0000"]: the
    normalized value is the cleaned value itself (which then does not
    start with ["0000"]) or ["0000"] followed by it. *)
Theorem kontonr_clean_cuts_one_prefix (U : Util) (input v : string) :
  (forall e, Kontonr.clean input = (v, Some e)
             <-> cleanUnicode input " -." = (v, Some e))
  /\ (Kontonr.clean input = (v, None) ->
      (cleanUnicode input " -." = (v, None)
       /\ Js.startsWith v "0000" = false)
      \/ cleanUnicode input " -." = ("0000" ++ v, None)).
Proof.
  unfold Kontonr.clean.
  destruct (cleanUnicode input " -.") as [w [e'|]] eqn:Hcu.
  - split; [intros e; split; intros H; exact H | discriminate].
  - destruct (Js.startsWith w "0000") eqn:Hp; split.
    + intros e; split; discriminate.
    + intros H. injection H as <-. right.
      f_equal. exact (prefix_split "0000" w Hp).
    + intros e; split; discriminate.
    + intros H. injection H as <-. left. now split.
Qed.

Lemma kontonr_clean_cuts_one_prefix_witness :
  (cleanUnicode (Util := spec_util) "0000.10.00264" " -."
   = ("1000264", None)
   /\ Js.startsWith "1000264" "0000" = false)
  \/ cleanUnicode (Util := spec_util) "0000.10.00264" " -."
     = ("0000" ++ "1000264", None).
Proof.
  apply (proj2 (kontonr_clean_cuts_one_prefix
                  spec_util "0000.10.00264" "1000264")).
  reflexivity.
Defined.

(** X5. The South Africa [format] never throws and always yields the
    display shape: the cleaned value left-padded with ['0'] to at least
    11 characters, cut into its first four characters, the next two and
    the rest, joined by dots.  Nothing of the value is dropped. *)
Theorem kontonr_format_shape (U : Util) (input : string) :
  let padded := Js.padStart (fst (Kontonr.clean input)) 11 "0" in
  let a := substring 0 4 padded in
  let b := substring 4 2 padded in
  let c := Js.substr_from padded 6 in
  Kontonr.format input = Return (a ++ "." ++ b ++ "." ++ c)
  /\ a ++ b ++ c = padded
  /\ length a = 4 /\ length b = 2 /\ 5 <= length c
  /\ length padded = Nat.max 11 (length (fst (Kontonr.clean input))).
Proof.
  intros padded a b c.
  assert (Hlen : length padded
                 = Nat.max 11 (length (fst (Kontonr.clean input))))
    by apply padStart_length.
  destruct (splitAt_4_6 padded) as [Hsplit Hcat].
  repeat split.
  - unfold Kontonr.format. destruct (Kontonr.clean input) as [value err].
    cbn [fst] in *. fold padded. now rewrite Hsplit.
  - exact Hcat.
  - unfold a. rewrite substring_length. lia.
  - unfold b. rewrite substring_length. lia.
  - unfold c. rewrite substr_from_length. lia.
  - exact Hlen.
Qed.

(** X6. A 7-digit number and its 11-character form padded with ["0000"]
    are treated alike: when the normalizer returns [w] for one input and
    ["0000"] followed by [w] for another, and [w] does not itself start
    with ["0000"], then [compact], [format] and [validate] give the same
    results on the two inputs. *)
Theorem kontonr_padded_form_alike (U : Util) (short long w : string)
  (Hshort : cleanUnicode short " -." = (w, None))
  (Hlong : cleanUnicode long " -." = ("0000" ++ w, None))
  (Hw : Js.startsWith w "0000" = false) :
  Kontonr.compact long = Kontonr.compact short
  /\ Kontonr.format long = Kontonr.format short
  /\ Kontonr.validate long = Kontonr.validate short.
Proof.
  assert (Hclean : Kontonr.clean long = Kontonr.clean short).
  { unfold Kontonr.clean. rewrite Hshort, Hlong, Hw, startsWith_padded.
    reflexivity. }
  unfold Kontonr.compact, Kontonr.format, Kontonr.validate.
  now rewrite Hclean.
Qed.

Lemma kontonr_padded_form_alike_witness :
  Kontonr.compact (U := spec_util) "0000.10.00264"
  = Kontonr.compact (U := spec_util) "1000264"
  /\ Kontonr.format (U := spec_util) "0000.10.00264"
     = Kontonr.format (U := spec_util) "1000264"
  /\ Kontonr.validate (U := spec_util) "0000.10.00264"
     = Kontonr.validate (U := spec_util) "1000264".
Proof.
  apply (kontonr_padded_form_alike
           spec_util "1000264" "0000.10.00264" "1000264");
    reflexivity.
Defined.

(** ** Both modules: [validate] against [compact] *)

(** X7. Whenever [compact] throws, [validate] returns the invalid result
    with the very error [compact] throws, in both modules. *)
Theorem validate_reports_compact_error
  (U : Util) (input : string) (e : ErrorKind) :
  (Kontonr.compact input = Throw e ->
   Kontonr.validate input = Return (invalid e))
  /\ (Nrt.compact input = Throw e ->
      Nrt.validate input = Return (invalid e)).
Proof.
  split.
  - unfold Kontonr.compact, Kontonr.validate.
    destruct (Kontonr.clean input) as [v [e'|]]; intros H.
    + now injection H as ->.
    + discriminate H.
  - unfold Nrt.compact, Nrt.validate.
    destruct (Nrt.clean input) as [v [e'|]]; intros H.
    + now injection H as ->.
    + discriminate H.
Qed.

Lemma validate_reports_compact_error_witness :
  Kontonr.validate (U := spec_util) "12#45" = Return (invalid InvalidFormat)
  /\ Nrt.validate (U := spec_util) "a#" = Return (invalid InvalidFormat).
Proof.
  split.
  - apply (proj1 (validate_reports_compact_error
                    spec_util "12#45" InvalidFormat)).
    reflexivity.
  - apply (proj2 (validate_reports_compact_error
                    spec_util "a#" InvalidFormat)).
    reflexivity.
Defined.

(** X8. On every input the South Africa [validate] accepts, [compact]
    succeeds and returns the very string of the result's [compact]
    field, of 7 or 11 characters. *)
Theorem kontonr_valid_compact_field
  (U : Util) (input : string) (r : ValidateReturn)
  (Hr : Kontonr.validate input = Return r)
  (Hvalid : isValid r = true) :
  exists v, compact r = Some v
            /\ Kontonr.compact input = Return v
            /\ (length v = 11 \/ length v = 7).
Proof.
  destruct (kontonr_valid_inv U input r Hr Hvalid) as (v & Hc & -> & Hl).
  exists v. unfold Kontonr.compact. rewrite Hc. now repeat split.
Qed.

Lemma kontonr_valid_compact_field_witness :
  exists v, compact (valid "1000264" false true) = Some v
            /\ Kontonr.compact (U := spec_util) "0000.10.00264" = Return v
            /\ (length v = 11 \/ length v = 7).
Proof.
  apply (kontonr_valid_compact_field spec_util "0000.10.00264");
    reflexivity.
Defined.

(** X9. On every input the Andorra [validate] accepts, [compact] succeeds
    and returns the upper-cased [compact] field of the result: the field
    itself is the cleaned value as the normalizer returned it, of 8
    characters, and is not upper-cased by [validate]. *)
Theorem nrt_valid_compact_field
  (U : Util) (input : string) (r : ValidateReturn)
  (Hr : Nrt.validate input = Return r)
  (Hvalid : isValid r = true) :
  exists v, compact r = Some v
            /\ Nrt.clean input = (v, None)
            /\ length v = 8
            /\ Nrt.compact input = Return (toLocaleUpperCase v).
Proof.
  destruct (nrt_valid_inv U input r Hr Hvalid) as (v & Hc & Hl & ->).
  exists v. unfold Nrt.compact. rewrite Hc. now repeat split.
Qed.

Lemma nrt_valid_compact_field_witness :
  exists v, compact (valid "U132950X" false true) = Some v
            /\ Nrt.clean (U := spec_util) "U-132950-x" = (v, None)
            /\ length v = 8
            /\ Nrt.compact (U := spec_util) "U-132950-x"
               = Return (toLocaleUpperCase (Util := spec_util) v).
Proof.
  apply (nrt_valid_compact_field spec_util "U-132950-x"); reflexivity.
Defined.

(** ** Andorran NRT: what [validate] accepts and rejects *)

(** A string of 8 characters, spelled out. *)
Lemma length_8_inv (v : string) :
  length v = 8 ->
  exists a b c d e f g h,
    v = String a (String b (String c (String d
          (String e (String f (String g (String h ""))))))).
Proof.
  intros H.
  do 8 (destruct v as [|? v]; [discriminate H|]).
  destruct v; [|discriminate H]. now repeat eexists.
Qed.

(** The allow-list of leading characters, one character at a time. *)
Lemma allowed_leading (c : ascii) :
  Js.includes "ACDEFGLOPU" (String c "") = true ->
  In c ["A"; "C"; "D"; "E"; "F"; "G"; "L"; "O"; "P"; "U"]%char.
Proof.
  destruct c as [[] [] [] [] [] [] [] []]; intros H;
    solve [discriminate H | simpl; tauto].
Qed.

Lemma individual_leading (c : ascii) :
  Js.includes "AF" (String c "") = true <-> (c = "A" \/ c = "F")%char.
Proof.
  destruct c as [[] [] [] [] [] [] [] []];
    (split; [intros H; solve [discriminate H | tauto]
            | intros [H | H]; solve [discriminate H | reflexivity]]).
Qed.

(** X10. Every value the Andorra [validate] accepts starts with one of
    the ten characters A, C, D, E, F, G, L, O, P, U (upper case), and the
    result classifies it as an individual exactly when that character is
    A or F, as a company otherwise. *)
Theorem nrt_valid_leading_letter
  (U : Util) (input : string) (r : ValidateReturn)
  (Hr : Nrt.validate input = Return r)
  (Hvalid : isValid r = true) :
  exists c rest,
    compact r = Some (String c rest)
    /\ In c ["A"; "C"; "D"; "E"; "F"; "G"; "L"; "O"; "P"; "U"]%char
    /\ (isIndividual r = Some true <-> (c = "A" \/ c = "F")%char)
    /\ (isCompany r = Some true <-> ~ (c = "A" \/ c = "F")%char).
Proof.
  destruct (nrt_valid_checks U input r Hr Hvalid)
    as (v & Hc & Hl & _ & _ & _ & Hallow & _).
  destruct (nrt_valid_inv U input r Hr Hvalid) as (v' & Hc' & _ & ->).
  rewrite Hc in Hc'. injection Hc' as <-.
  destruct (length_8_inv v Hl)
    as (c & c2 & c3 & c4 & c5 & c6 & c7 & c8 & Hv).
  subst v.
  change (Js.at_ (String c _) 0) with (String c "") in *.
  exists c. eexists. split; [reflexivity|].
  split; [now apply allowed_leading|].
  cbn [isIndividual isCompany valid].
  pose proof (individual_leading c) as Hind.
  destruct (Js.includes "AF" (String c "")); cbn [negb]; split; split.
  - intros _. now apply Hind.
  - reflexivity.
  - discriminate.
  - intros Hn. exfalso. now apply Hn, Hind.
  - discriminate.
  - intros H. apply Hind in H. discriminate H.
  - intros _ Hn. apply Hind in Hn. discriminate Hn.
  - reflexivity.
Qed.

Lemma nrt_valid_leading_letter_witness :
  exists c rest,
    compact (valid "U132950X" false true) = Some (String c rest)
    /\ In c ["A"; "C"; "D"; "E"; "F"; "G"; "L"; "O"; "P"; "U"]%char
    /\ (isIndividual (valid "U132950X" false true) = Some true
        <-> (c = "A" \/ c = "F")%char)
    /\ (isCompany (valid "U132950X" false true) = Some true
        <-> ~ (c = "A" \/ c = "F")%char).
Proof.
  apply (nrt_valid_leading_letter spec_util "U-132950-X"); reflexivity.
Defined.

(** X11. The two other component rules of the Andorra [validate]: once
    the length, the alphabetic ends and the digit middle have passed, a
    leading character outside the allow-list ["ACDEFGLOPU"] gives
    [InvalidComponent], and so does a leading ["A"] or ["L"] whose middle
    six digits lie strictly between ["699999"] and ["800000"]. *)
Theorem nrt_component_rules (U : Util) (input v : string)
  (Hclean : Nrt.clean input = (v, None))
  (Hlen : length v = 8)
  (Hfirst : isalpha (Js.at_ v 0) = true)
  (Hlast : isalpha (Js.at_ v 7) = true)
  (Hmid : isdigits (Js.substr v 1 6) = true) :
  (Js.includes "ACDEFGLOPU" (Js.at_ v 0) = false ->
   Nrt.validate input = Return (invalid InvalidComponent))
  /\ (Js.at_ v 0 = "A" \/ Js.at_ v 0 = "L" ->
      Js.gt (Js.substr v 1 6) "699999" = true ->
      Js.lt (Js.substr v 1 6) "800000" = true ->
      Nrt.validate input = Return (invalid InvalidComponent)).
Proof.
  split.
  - intros Hallow. unfold Nrt.validate. rewrite Hclean, Hlen.
    change (8 - 1) with 7. change (8 - 2) with 6.
    now rewrite Hfirst, Hlast, Hmid, Hallow.
  - intros HAL Hgt Hlt. unfold Nrt.validate. rewrite Hclean, Hlen.
    change (8 - 1) with 7. change (8 - 2) with 6.
    rewrite Hfirst, Hlast, Hmid, Hgt, Hlt.
    destruct HAL as [-> | ->]; reflexivity.
Qed.

Lemma nrt_component_rules_witness :
  Nrt.validate (U := spec_util) "B-123456-Z"
  = Return (invalid InvalidComponent)
  /\ Nrt.validate (U := spec_util) "L-750000-Z"
     = Return (invalid InvalidComponent).
Proof.
  split.
  - apply (proj1 (nrt_component_rules spec_util "B-123456-Z" "B123456Z"
                    eq_refl eq_refl eq_refl eq_refl eq_refl)).
    reflexivity.
  - apply (proj2 (nrt_component_rules spec_util "L-750000-Z" "L750000Z"
                    eq_refl eq_refl eq_refl eq_refl eq_refl));
      [right; reflexivity | reflexivity | reflexivity].
Defined.

(** X12. The structural errors of the Andorra [validate] and their
    precedence: a cleaned value whose length is not 8 gives
    [InvalidLength]; one of length 8 whose first or last character is not
    alphabetic, or whose middle is not digits, gives [InvalidFormat],
    whatever its leading character and middle range are. *)
Theorem nrt_structural_errors (U : Util) (input v : string)
  (Hclean : Nrt.clean input = (v, None)) :
  (length v <> 8 -> Nrt.validate input = Return (invalid InvalidLength))
  /\ (length v = 8 ->
      isalpha (Js.at_ v 0) = false \/ isalpha (Js.at_ v 7) = false
      \/ isdigits (Js.substr v 1 6) = false ->
      Nrt.validate input = Return (invalid InvalidFormat)).
Proof.
  split.
  - intros Hlen. unfold Nrt.validate. rewrite Hclean.
    apply Nat.eqb_neq in Hlen. now rewrite Hlen.
  - intros Hlen H. unfold Nrt.validate. rewrite Hclean, Hlen.
    change (8 - 1) with 7. change (8 - 2) with 6. cbn [Nat.eqb negb].
    destruct H as [H | [H | H]]; rewrite H.
    + reflexivity.
    + now destruct (isalpha (Js.at_ v 0)).
    + now destruct (isalpha (Js.at_ v 0)), (isalpha (Js.at_ v 7)).
Qed.

Lemma nrt_structural_errors_witness :
  Nrt.validate (U := spec_util) "F-70000-Z" = Return (invalid InvalidLength)
  /\ Nrt.validate (U := spec_util) "F-7x0000-Z"
     = Return (invalid InvalidFormat).
Proof.
  split.
  - apply (proj1 (nrt_structural_errors spec_util "F-70000-Z" "F70000Z"
                    eq_refl)).
    simpl. lia.
  - apply (proj2 (nrt_structural_errors spec_util "F-7x0000-Z" "F7X0000Z"
                    eq_refl));
      [reflexivity | right; right; reflexivity].
Defined.

(** X13. In the South Africa [validate] the digit check comes before
    either checksum: a cleaned value of 7 or 11 characters that fails
    [isdigits] gives [InvalidFormat], whatever the Luhn check and the
    weighted sum would say. *)
Theorem kontonr_non_digits_invalid_format (U : Util) (input value : string)
  (Hclean : Kontonr.clean input = (value, None))
  (Hlen : length value = 11 \/ length value = 7)
  (Hdigits : isdigits value = false) :
  Kontonr.validate input = Return (invalid InvalidFormat).
Proof.
  unfold Kontonr.validate. rewrite Hclean, Hdigits.
  destruct Hlen as [-> | ->]; reflexivity.
Qed.

Lemma kontonr_non_digits_invalid_format_witness :
  Kontonr.validate (U := spec_util) "1000.00.0000x"
  = Return (invalid InvalidFormat).
Proof.
  apply (kontonr_non_digits_invalid_format
           spec_util "1000.00.0000x" "1000000000X");
    [reflexivity | left; reflexivity | reflexivity].
Defined.

(** X14. Past a successful normalizer the two validators report only
    their own three error kinds: the South Africa [validate] never
    reports [InvalidComponent], and the Andorra [validate], which does
    not check the control letter, never reports [InvalidChecksum]. *)
Theorem validate_error_kinds (U : Util) (input : string) (r : ValidateReturn) :
  (snd (Kontonr.clean input) = None ->
   Kontonr.validate input = Return r ->
   error r <> Some InvalidComponent)
  /\ (snd (Nrt.clean input) = None ->
      Nrt.validate input = Return r ->
      error r <> Some InvalidChecksum).
Proof.
  split.
  - unfold Kontonr.validate.
    destruct (Kontonr.clean input) as [v [e|]]; cbn [snd];
      [discriminate|].
    intros _ Hr. guards_in Hr; injection Hr as <-; discriminate.
  - unfold Nrt.validate.
    destruct (Nrt.clean input) as [v [e|]]; cbn [snd]; [discriminate|].
    intros _ Hr. guards_in Hr; injection Hr as <-; discriminate.
Qed.

Lemma validate_error_kinds_witness :
  error (invalid InvalidChecksum) <> Some InvalidComponent
  /\ error (invalid InvalidComponent) <> Some InvalidChecksum.
Proof.
  split.
  - apply (proj1 (validate_error_kinds
                    spec_util "1000.10.00000" (invalid InvalidChecksum)));
      reflexivity.
  - apply (proj2 (validate_error_kinds
                    spec_util "F-700000-Z" (invalid InvalidComponent)));
      reflexivity.
Defined.

(** X15. The Andorra [validate] does not check the control letter: two
    cleaned values of the same length that agree on their first seven
    characters, and whose eighth characters [isalpha] treats alike, get
    the same verdict, the same error and the same classification; only
    the [compact] field of a valid result differs. *)
Theorem nrt_control_letter_unchecked
  (U : Util) (i i' v v' : string) (r : ValidateReturn)
  (Hc : Nrt.clean i = (v, None))
  (Hc' : Nrt.clean i' = (v', None))
  (Hlen : length v' = length v)
  (Hsame : substring 0 7 v' = substring 0 7 v)
  (Hlast : isalpha (Js.at_ v' 7) = isalpha (Js.at_ v 7))
  (Hr : Nrt.validate i = Return r) :
  Nrt.validate i'
  = Return {| isValid := isValid r;
              compact := if isValid r then Some v' else None;
              isIndividual := isIndividual r;
              isCompany := isCompany r;
              error := error r |}.
Proof.
  unfold Nrt.validate in *. rewrite Hc in Hr. rewrite Hc', Hlen.
  destruct (length v =? 8)%nat eqn:H8; cbn [negb] in *.
  - apply Nat.eqb_eq in H8. rewrite H8 in *.
    change (8 - 1) with 7 in *. change (8 - 2) with 6 in *.
    rewrite Hlast.
    destruct (length_8_inv v H8)
      as (a & b & c & d & e & f & g & h & ->).
    destruct (length_8_inv v' Hlen)
      as (a' & b' & c' & d' & e' & f' & g' & h' & ->).
    cbn [substring] in Hsame.
    injection Hsame as -> -> -> -> -> -> ->.
    change (Js.at_ (String a _) 0) with (String a "") in *.
    change (Js.substr (String a (String b (String c (String d
              (String e (String f (String g (String h' ""))))))))
              1 6)
      with (Js.substr (String a (String b (String c (String d
              (String e (String f (String g (String h ""))))))))
              1 6).
    guards_in Hr; injection Hr as <-; reflexivity.
  - injection Hr as <-. reflexivity.
Qed.

Lemma nrt_control_letter_unchecked_witness :
  Nrt.validate (U := spec_util) "U132950Q"
  = Return (valid "U132950Q" false true).
Proof.
  apply (nrt_control_letter_unchecked
           spec_util "U-132950-X" "U132950Q" "U132950X" "U132950Q"
           (valid "U132950X" false true));
    reflexivity.
Defined.

(** X16. With the helpers as the specification describes them, the
    upper-casing in the Andorra [compact] changes nothing: [compact]
    returns exactly the value the normalizer returned, which consists of
    ASCII letters and digits and is already in upper case. *)
Theorem nrt_compact_upper_case (input v : string)
  (Hv : Nrt.compact (U := spec_util) input = Return v) :
  Nrt.clean (U := spec_util) input = (v, None)
  /\ alnum v = true
  /\ toLocaleUpperCase (Util := spec_util) v = v.
Proof.
  now apply nrt_compact_ok.
Qed.

Lemma nrt_compact_upper_case_witness :
  Nrt.clean (U := spec_util) "u-132950 x" = ("U132950X", None)
  /\ alnum "U132950X" = true
  /\ toLocaleUpperCase (Util := spec_util) "U132950X" = "U132950X".
Proof.
  apply (nrt_compact_upper_case "u-132950 x" "U132950X").
  reflexivity.
Defined.

(** ** The display form *)

(** X17. The South Africa display form is treated like the input it was
    made from: when [clean] succeeds with a value of 7 characters, or of
    at least 11 that do not start with ["0000"], and the normalizer
    removes the dots of the display string (returns the padded value for
    it), then [compact], [format] and [validate] give the same results on
    [format(input)] as on the input. *)
Theorem kontonr_display_form_alike (U : Util) (input v s : string)
  (Hclean : Kontonr.clean input = (v, None))
  (Hcase : length v = 7
           \/ (11 <= length v /\ Js.startsWith v "0000" = false))
  (Hs : Kontonr.format input = Return s)
  (Hdots : cleanUnicode s " -." = (Js.padStart v 11 "0", None)) :
  Kontonr.compact s = Kontonr.compact input
  /\ Kontonr.format s = Kontonr.format input
  /\ Kontonr.validate s = Kontonr.validate input.
Proof.
  assert (Hcs : Kontonr.clean s = Kontonr.clean input).
  { rewrite Hclean. unfold Kontonr.clean. rewrite Hdots.
    unfold Js.padStart. destruct Hcase as [Hl | [Hl Hp]].
    - rewrite Hl. change (Js.repeat_char "0" (11 - 7) ++ v) with ("0000" ++ v).
      now rewrite startsWith_padded.
    - replace (11 - length v) with 0 by lia. cbn [Js.repeat_char append].
      now rewrite Hp. }
  unfold Kontonr.compact, Kontonr.format, Kontonr.validate.
  now rewrite Hcs.
Qed.

Lemma kontonr_display_form_alike_witness :
  Kontonr.compact (U := spec_util) "1000.00.00006"
  = Kontonr.compact (U := spec_util) "1000 0000 006"
  /\ Kontonr.format (U := spec_util) "1000.00.00006"
     = Kontonr.format (U := spec_util) "1000 0000 006"
  /\ Kontonr.validate (U := spec_util) "1000.00.00006"
     = Kontonr.validate (U := spec_util) "1000 0000 006".
Proof.
  apply (kontonr_display_form_alike
           spec_util "1000 0000 006" "10000000006" "1000.00.00006");
    [reflexivity | right; split; [simpl; lia | reflexivity]
    | reflexivity | reflexivity].
Defined.

(** ** Andorran NRT over the helpers of the specification *)

(** X18. With the helpers as the specification describes them, every
    input the Andorra [validate] accepts is still accepted once compacted
    and once formatted: [validate(compact(x))] and [validate(format(x))]
    return the same valid result, whose [compact] field is [compact(x)]
    and whose classification is that of [validate(x)]. *)
Theorem nrt_valid_after_compact_and_format
  (x : string) (r : ValidateReturn)
  (Hr : Nrt.validate (U := spec_util) x = Return r)
  (Hvalid : isValid r = true) :
  exists v' r',
    Nrt.compact (U := spec_util) x = Return v'
    /\ Nrt.validate (U := spec_util) v' = Return r'
    /\ (s <- Nrt.format (U := spec_util) x ;;
        Nrt.validate (U := spec_util) s) = Return r'
    /\ isValid r' = true
    /\ compact r' = Some v'
    /\ isIndividual r' = isIndividual r
    /\ isCompany r' = isCompany r.
Proof.
  destruct (nrt_valid_inv spec_util x r Hr Hvalid) as (v & Hc & Hl & Hrv).
  assert (Hclean : alnum v = true /\ SpecModel.toLocaleUpperCase v = v).
  { unfold Nrt.clean in Hc. cbn [cleanUnicode spec_util] in Hc.
    now apply cleanUnicode_ok in Hc. }
  destruct Hclean as [Ha Hu].
  assert (Hcompact : Nrt.compact (U := spec_util) x = Return v).
  { unfold Nrt.compact. rewrite Hc. cbn [toLocaleUpperCase spec_util].
    now rewrite Hu. }
  pose proof (nrt_validate_compacted x v Hcompact) as Hv.
  exists v, r. split; [exact Hcompact|].
  split; [now rewrite Hv|].
  split; [|subst r; now repeat split].
  unfold Nrt.format. rewrite Hcompact. cbn [bind formatPattern spec_util].
  rewrite <- Hr, <- Hv. apply nrt_validate_strip.
  unfold SpecModel.formatPattern, Js.padStart. rewrite Hl.
  change (Js.repeat_char "0" (SpecModel.placeholders "?-??????-?" - 8) ++ v)
    with v.
  rewrite (strip_alnum _ Ha). now apply strip_fill_alnum.
Qed.

Lemma nrt_valid_after_compact_and_format_witness :
  exists v' r',
    Nrt.compact (U := spec_util) "U-132950-x" = Return v'
    /\ Nrt.validate (U := spec_util) v' = Return r'
    /\ (s <- Nrt.format (U := spec_util) "U-132950-x" ;;
        Nrt.validate (U := spec_util) s) = Return r'
    /\ isValid r' = true
    /\ compact r' = Some v'
    /\ isIndividual r' = isIndividual (valid "U132950X" false true)
    /\ isCompany r' = isCompany (valid "U132950X" false true).
Proof.
  apply (nrt_valid_after_compact_and_format "U-132950-x"); reflexivity.
Defined.

(** ** South African TIN: validating a compacted value *)

(** X19. Validating what [compact] returned gives the result of
    validating the input: when [clean] succeeds with [v], the normalizer
    leaves [v] unchanged and [v] does not start with ["0000"], then
    [compact], [format] and [validate] give the same results on [v] as on
    the input. *)
Theorem kontonr_compacted_value_alike (U : Util) (input v : string)
  (Hclean : Kontonr.clean input = (v, None))
  (Hnorm : cleanUnicode v " -." = (v, None))
  (Hp : Js.startsWith v "0000" = false) :
  Kontonr.compact input = Return v
  /\ Kontonr.compact v = Return v
  /\ Kontonr.format v = Kontonr.format input
  /\ Kontonr.validate v = Kontonr.validate input.
Proof.
  assert (Hcv : Kontonr.clean v = Kontonr.clean input).
  { rewrite Hclean. unfold Kontonr.clean. now rewrite Hnorm, Hp. }
  unfold Kontonr.compact, Kontonr.format, Kontonr.validate.
  rewrite Hcv, Hclean. now repeat split.
Qed.

Lemma kontonr_compacted_value_alike_witness :
  Kontonr.compact (U := spec_util) "0000.10.00264" = Return "1000264"
  /\ Kontonr.compact (U := spec_util) "1000264" = Return "1000264"
  /\ Kontonr.format (U := spec_util) "1000264"
     = Kontonr.format (U := spec_util) "0000.10.00264"
  /\ Kontonr.validate (U := spec_util) "1000264"
     = Kontonr.validate (U := spec_util) "0000.10.00264".
Proof.
  apply (kontonr_compacted_value_alike
           spec_util "0000.10.00264" "1000264");
    reflexivity.
Defined.
